(** * Sistema de clientes de la recicladora: a model of [clientes.py]

    The development embeds the ledger of [SistemaClientes] (the customer
    dictionary, the price table and the JSON file behind them) and proves
    the properties of the specification about it.

    Conventions of the embedding:
    - Python [float] is Rocq's primitive binary64 [float]; [+], [*], [<=]
      and [>] are the IEEE operations, so NaN and the infinities behave as
      they do in Python.
    - Python [dict] is an association list in insertion order with unique
      keys ([Dict]); assignment to a present key replaces the value where it
      stands, assignment to an absent key appends.
    - Python [str] is [string] (the UTF-8 bytes of the text).  [lower],
      [strip] and [title] of [PyStr] are Python's on ASCII text; a byte
      above 127 is kept as it is and counts as a letter.  What rests on
      these methods beyond ASCII is stated of the operations that take
      them as a parameter ([Metodos]).
    - A method is a function in the monad [M] that threads the state
      [Estado] (the fields of [self] and the disk) and may raise.
    - [datetime.now()] is an argument of the operation that reads the
      clock.  What is written on standard output is left out. *)

From Stdlib Require Import ZArith NArith List String Ascii Bool Lia.
From Stdlib Require Import Floats.
From Stdlib Require Import DecimalString DecimalN DecimalZ.
From Stdlib Require Import Sorted Permutation.
Import ListNotations.

Local Open Scope string_scope.

(** ** Python's string methods *)

Module PyStr.

Definition ord (c : ascii) : N := N_of_ascii c.

Definition isupper (c : ascii) : bool := ((65 <=? ord c) && (ord c <=? 90))%N.
Definition islower (c : ascii) : bool := ((97 <=? ord c) && (ord c <=? 122))%N.

(** [str.isspace] on ASCII: tab, line feed, vertical tab, form feed,
    carriage return, the four separators 0x1c-0x1f and the space. *)
Definition isspace (c : ascii) : bool :=
  (((9 <=? ord c) && (ord c <=? 13)) || ((28 <=? ord c) && (ord c <=? 32)))%N.

(** Cased characters: the ASCII letters, and every byte of a character
    outside ASCII. *)
Definition iscased (c : ascii) : bool :=
  (isupper c || islower c || (128 <=? ord c))%N.

Definition to_lower (c : ascii) : ascii :=
  if isupper c then ascii_of_N (ord c + 32) else c.
Definition to_upper (c : ascii) : ascii :=
  if islower c then ascii_of_N (ord c - 32) else c.

Fixpoint lower (s : string) : string :=
  match s with
  | EmptyString => EmptyString
  | String c r => String (to_lower c) (lower r)
  end.

Fixpoint lstrip (s : string) : string :=
  match s with
  | EmptyString => EmptyString
  | String c r => if isspace c then lstrip r else s
  end.

Fixpoint rstrip (s : string) : string :=
  match s with
  | EmptyString => EmptyString
  | String c r =>
      match rstrip r with
      | EmptyString => if isspace c then EmptyString else String c EmptyString
      | r' => String c r'
      end
  end.

Definition strip (s : string) : string := rstrip (lstrip s).

(** [str.title]: the first cased character of a run is upper-cased, the
    following ones are lower-cased; an uncased character ends the run. *)
Fixpoint title_from (previous_is_cased : bool) (s : string) : string :=
  match s with
  | EmptyString => EmptyString
  | String c r =>
      if iscased c
      then String (if previous_is_cased then to_lower c else to_upper c)
                  (title_from true r)
      else String c (title_from false r)
  end.

Definition title (s : string) : string := title_from false s.

(** [str(n)] of an integer. *)
Definition str (z : Z) : string := NilZero.string_of_int (Z.to_int z).

(** [int(s)]: surrounding blanks are dropped, then an optional sign and
    decimal digits are read; [None] stands for [ValueError].  Underscores
    between digits and digits outside ASCII, which Python also reads, are
    refused here. *)
Definition int (s : string) : option Z :=
  match strip s with
  | EmptyString => None
  | String c r =>
      if Ascii.eqb c "+" then option_map Z.of_uint (NilZero.uint_of_string r)
      else option_map Z.of_int (NilZero.int_of_string (String c r))
  end.

(** The characters of a numeral written by [str]. *)
Definition is_numeral_char (c : ascii) : bool :=
  ((48 <=? ord c) && (ord c <=? 57))%N || Ascii.eqb c "-".

Fixpoint is_numeral (s : string) : bool :=
  match s with
  | EmptyString => true
  | String c r => is_numeral_char c && is_numeral r
  end.

(** A number left-padded with zeros, as [strftime] prints its fields. *)
Fixpoint zeros (n : nat) : string :=
  match n with
  | O => EmptyString
  | S k => String "0" (zeros k)
  end.

Definition zfill (width : nat) (n : N) : string :=
  let d := NilZero.string_of_uint (N.to_uint n) in
  zeros (width - String.length d) ++ d.

End PyStr.

(** ** Python's insertion-ordered dictionary *)

Module Dict.
Section WithKey.
Context {K V : Type}.
Variable eqb : K -> K -> bool.

Definition t : Type := list (K * V).

Fixpoint get (d : t) (k : K) : option V :=
  match d with
  | [] => None
  | (k', v) :: r => if eqb k' k then Some v else get r k
  end.

Definition mem (d : t) (k : K) : bool :=
  match get d k with Some _ => true | None => false end.

(** [d.get(k, default)] *)
Definition get_default (d : t) (k : K) (default : V) : V :=
  match get d k with Some v => v | None => default end.

(** [d[k] = v] *)
Fixpoint set (d : t) (k : K) (v : V) : t :=
  match d with
  | [] => [(k, v)]
  | (k', v') :: r =>
      if eqb k' k then (k', v) :: r else (k', v') :: set r k v
  end.

Definition keys (d : t) : list K := map fst d.
Definition values (d : t) : list V := map snd d.
End WithKey.
End Dict.

(** [max(xs, default=d)] over integers *)
Definition py_max (xs : list Z) (default : Z) : Z :=
  match xs with
  | [] => default
  | x :: r => fold_left Z.max r x
  end.

(** [sum(xs)] over floats: the additions from the left, starting at zero *)
Definition py_sum (xs : list float) : float :=
  fold_left PrimFloat.add xs 0%float.

(** ** The clock *)

Record datetime : Type := {
  year : N; month : N; day : N; hour : N; minute : N; second : N
}.

Module Strftime.
Import PyStr.
(** ["%Y-%m-%d"], the year in four digits *)
Definition fecha (t : datetime) : string :=
  zfill 4 (year t) ++ "-" ++ zfill 2 (month t) ++ "-" ++ zfill 2 (day t).
(** ["%Y-%m-%d %H:%M"] *)
Definition fecha_hora (t : datetime) : string :=
  fecha t ++ " " ++ zfill 2 (hour t) ++ ":" ++ zfill 2 (minute t).
(** ["%Y-%m"] *)
Definition mes (t : datetime) : string :=
  zfill 4 (year t) ++ "-" ++ zfill 2 (month t).
(** ["%Y%m%d_%H%M%S"] *)
Definition sello (t : datetime) : string :=
  zfill 4 (year t) ++ zfill 2 (month t) ++ zfill 2 (day t) ++ "_" ++
  zfill 2 (hour t) ++ zfill 2 (minute t) ++ zfill 2 (second t).
End Strftime.

(** ** Data model *)

(** One purchase, an element of ["historial"]. *)
Record Compra : Type := {
  fecha : string;
  material : string;
  peso : float;
  precio_kg : float;
  total : float;
  mes : string
}.

(** One customer, a value of [self.clientes]. *)
Record Cliente : Type := {
  nombre : string;
  telefono : string;
  direccion : string;
  fecha_registro : string;
  compras_totales : float;
  peso_total : float;
  num_transacciones : Z;
  historial : list Compra;
  activo : bool
}.

Definition Clientes : Type := Dict.t (K := Z) (V := Cliente).
Definition Precios : Type := Dict.t (K := string) (V := float).

(** What [json.load] gives for the data file: an object whose keys are
    strings.  The values are the customers, which [json] writes and reads
    back as they are. *)
Definition Documento : Type := list (string * Cliente).

(** The values one line of the CSV report is made from.  The line itself
    is these values as text, separated by commas and not quoted, the two
    amounts in the format [.2f]. *)
Record FilaCsv : Type := {
  csv_id : Z;
  csv_nombre : string;
  csv_telefono : string;
  csv_direccion : string;
  csv_fecha_registro : string;
  csv_total_compras : float;
  csv_peso_total : float;
  csv_num_transacciones : Z
}.

Inductive Contenido : Type :=
| Json (doc : Documento)
| Csv (cabecera : string) (filas : list FilaCsv).

(** The files of the working directory, by name. *)
Definition Disco : Type := Dict.t (K := string) (V := Contenido).

(** The fields of [self], and the disk. *)
Record Estado : Type := {
  archivo_datos : string;
  clientes : Clientes;
  precios_materiales : Precios;
  disco : Disco
}.

Definition set_clientes (cs : Clientes) (st : Estado) : Estado :=
  {| archivo_datos := archivo_datos st;
     clientes := cs;
     precios_materiales := precios_materiales st;
     disco := disco st |}.

Definition set_precios (ps : Precios) (st : Estado) : Estado :=
  {| archivo_datos := archivo_datos st;
     clientes := clientes st;
     precios_materiales := ps;
     disco := disco st |}.

Definition set_disco (d : Disco) (st : Estado) : Estado :=
  {| archivo_datos := archivo_datos st;
     clientes := clientes st;
     precios_materiales := precios_materiales st;
     disco := d |}.

(** ** Exceptions and the monad of the methods *)

Inductive Excepcion : Type :=
| ValueError (mensaje : string)
| KeyError (clave : string)
| UnboundLocalError (variable : string).

Definition M (A : Type) : Type := Estado -> Estado * (Excepcion + A).

Definition ret {A : Type} (a : A) : M A := fun st => (st, inr a).

Definition raise {A : Type} (e : Excepcion) : M A := fun st => (st, inl e).

Definition bind {A B : Type} (m : M A) (k : A -> M B) : M B :=
  fun st =>
    match m st with
    | (st', inr a) => k a st'
    | (st', inl e) => (st', inl e)
    end.

Definition gets {A : Type} (f : Estado -> A) : M A := fun st => (st, inr (f st)).

Definition modify (f : Estado -> Estado) : M unit := fun st => (f st, inr tt).

Declare Scope py_scope.
Delimit Scope py_scope with py.
Notation "x <- m ;; k" := (bind m (fun x => k))
  (at level 61, m at next level, right associativity) : py_scope.
Notation "m ;; k" := (bind m (fun _ => k))
  (at level 61, right associativity) : py_scope.

Local Open Scope py_scope.

(** ** Persistence: [guardar_datos] and [cargar_datos] *)

(** [json.dump(self.clientes, f)]: the integer keys become their decimal
    strings, in the order of the dictionary. *)
Definition json_dump (cs : Clientes) : Documento :=
  map (fun kv => (PyStr.str (fst kv), snd kv)) cs.

(** The whole data file is rewritten.  A failure of the write is caught by
    the method and changes nothing in memory; the write is taken to
    succeed. *)
Definition guardar_datos : M unit :=
  fun st =>
    (set_disco (Dict.set String.eqb (disco st) (archivo_datos st)
                         (Json (json_dump (clientes st)))) st,
     inr tt).

(** [{int(k): v for k, v in data.items()}]; [None] when some [int(k)]
    raises. *)
Fixpoint claves_enteras (data : Documento) (acc : Clientes) : option Clientes :=
  match data with
  | [] => Some acc
  | (k, v) :: r =>
      match PyStr.int k with
      | Some id => claves_enteras r (Dict.set Z.eqb acc id v)
      | None => None
      end
  end.

(** No file: the ledger stays as it is.  A file that is not a JSON object
    or has a key that is not an integer: the exception is caught and the
    ledger is emptied. *)
Definition cargar_datos : M unit :=
  fun st =>
    match Dict.get String.eqb (disco st) (archivo_datos st) with
    | Some (Json data) =>
        match claves_enteras data [] with
        | Some cs => (set_clientes cs st, inr tt)
        | None => (set_clientes [] st, inr tt)
        end
    | Some (Csv _ _) => (set_clientes [] st, inr tt)
    | None => (st, inr tt)
    end.

Definition precios_iniciales : Precios :=
  [ ("aluminio", 25.0%float);
    ("papel", 3.0%float);
    ("plastico", 8.0%float);
    ("plástico", 8.0%float);
    ("vidrio", 5.0%float);
    ("carton", 2.5%float);
    ("cartón", 2.5%float);
    ("metal", 15.0%float);
    ("cobre", 80.0%float) ].

(** [SistemaClientes.__init__] on a given disk *)
Definition init (archivo : string) (d : Disco) : Estado :=
  fst (cargar_datos {| archivo_datos := archivo;
                       clientes := [];
                       precios_materiales := precios_iniciales;
                       disco := d |}).

(** ** [agregar_cliente] *)

(** The loop over [self.clientes.items()]: the first customer, in the order
    of the dictionary, whose telephone is the one given. *)
Fixpoint buscar_telefono (cs : Clientes) (tel : string) : option Z :=
  match cs with
  | [] => None
  | (cliente_id, datos) :: r =>
      if String.eqb (telefono datos) tel then Some cliente_id
      else buscar_telefono r tel
  end.

Definition cliente_nuevo (ahora : datetime) (nombre_ telefono_ direccion_ : string)
  : Cliente :=
  {| nombre := PyStr.title (PyStr.strip nombre_);
     telefono := PyStr.strip telefono_;
     direccion := PyStr.strip direccion_;
     fecha_registro := Strftime.fecha ahora;
     compras_totales := 0.0%float;
     peso_total := 0.0%float;
     num_transacciones := 0%Z;
     historial := [];
     activo := true |}.

Definition agregar_cliente (ahora : datetime) (nombre_ telefono_ direccion_ : string)
  : M Z :=
  if String.eqb (PyStr.strip nombre_) "" then
    raise (ValueError "El nombre no puede estar vacío")
  else
    cs <- gets clientes ;;
    match buscar_telefono cs telefono_ with
    | Some cliente_id => ret cliente_id
    | None =>
        let cliente_id := (py_max (Dict.keys cs) 0 + 1)%Z in
        modify (set_clientes
                  (Dict.set Z.eqb cs cliente_id
                            (cliente_nuevo ahora nombre_ telefono_ direccion_))) ;;
        guardar_datos ;;
        ret cliente_id
    end.

(** ** [registrar_compra] *)

(** [self.precios_materiales.get(material.lower(), 5.0)] *)
Definition precio_por_defecto (ps : Precios) (material_ : string) : float :=
  Dict.get_default String.eqb ps (PyStr.lower material_) 5.0%float.

(** The purchase appended to the history, and the three running totals
    updated on the customer. *)
Definition anotar_compra (cliente : Cliente) (compra : Compra) : Cliente :=
  {| nombre := nombre cliente;
     telefono := telefono cliente;
     direccion := direccion cliente;
     fecha_registro := fecha_registro cliente;
     compras_totales := (compras_totales cliente + total compra)%float;
     peso_total := (peso_total cliente + peso compra)%float;
     num_transacciones := (num_transacciones cliente + 1)%Z;
     historial := historial cliente ++ [compra];
     activo := activo cliente |}.

Definition registrar_compra (ahora : datetime) (cliente_id : Z)
    (material_ : string) (peso_ : float) (precio : option float) : M float :=
  cs <- gets clientes ;;
  if negb (Dict.mem Z.eqb cs cliente_id) then
    raise (ValueError ("Cliente con ID " ++ PyStr.str cliente_id ++ " no encontrado"))
  else if (peso_ <=? 0)%float then
    raise (ValueError "El peso debe ser mayor a 0")
  else
    ps <- gets precios_materiales ;;
    let precio_kg_ :=
      match precio with
      | None => precio_por_defecto ps material_
      | Some p => p
      end in
    let total_ := (peso_ * precio_kg_)%float in
    let compra :=
      {| fecha := Strftime.fecha_hora ahora;
         material := PyStr.title material_;
         peso := peso_;
         precio_kg := precio_kg_;
         total := total_;
         mes := Strftime.mes ahora |} in
    match Dict.get Z.eqb cs cliente_id with
    | None => raise (KeyError (PyStr.str cliente_id))
    | Some cliente =>
        modify (set_clientes
                  (Dict.set Z.eqb cs cliente_id (anotar_compra cliente compra))) ;;
        guardar_datos ;;
        ret total_
    end.

(** ** [exportar_datos] *)

Definition cabecera_csv : string :=
  "ID,Nombre,Telefono,Direccion,Fecha_Registro,Total_Compras,Peso_Total,Num_Transacciones".

Definition fila_csv (kv : Z * Cliente) : FilaCsv :=
  {| csv_id := fst kv;
     csv_nombre := nombre (snd kv);
     csv_telefono := telefono (snd kv);
     csv_direccion := direccion (snd kv);
     csv_fecha_registro := fecha_registro (snd kv);
     csv_total_compras := compras_totales (snd kv);
     csv_peso_total := peso_total (snd kv);
     csv_num_transacciones := num_transacciones (snd kv) |}.

(** The local variable [archivo] is bound in the two branches only; the
    [print] after them reads it, and raises when neither branch ran. *)
Definition exportar_datos (ahora : datetime) (formato : string) : M string :=
  let timestamp := Strftime.sello ahora in
  archivo <-
    (if String.eqb (PyStr.lower formato) "json" then
       let archivo := "backup_clientes_" ++ timestamp ++ ".json" in
       cs <- gets clientes ;;
       d <- gets disco ;;
       modify (set_disco (Dict.set String.eqb d archivo (Json (json_dump cs)))) ;;
       ret (Some archivo)
     else if String.eqb (PyStr.lower formato) "csv" then
       let archivo := "reporte_clientes_" ++ timestamp ++ ".csv" in
       cs <- gets clientes ;;
       d <- gets disco ;;
       modify (set_disco (Dict.set String.eqb d archivo
                                   (Csv cabecera_csv (map fila_csv cs)))) ;;
       ret (Some archivo)
     else ret None) ;;
  match archivo with
  | Some nombre_archivo => ret nombre_archivo
  | None => raise (UnboundLocalError "archivo")
  end.

(** ** [configurar_precios] *)

(** What the function tells the operator. *)
Inductive Aviso : Type :=
| PrecioActualizado      (* "Precio actualizado: ..." *)
| PrecioNoPositivo       (* "El precio debe ser mayor a 0" *)
| PrecioInvalido         (* "Precio inválido" *)
| MaterialNoEncontrado.  (* "Material '...' no encontrado" *)

(** [entrada_material] is the line typed for the material;
    [entrada_precio] is [float(input(...))] of the line typed for the
    price, [None] when [float] raises [ValueError].  The price is asked
    only for a material of the table. *)
Definition configurar_precios (entrada_material : string)
    (entrada_precio : option float) (sistema : Estado) : Estado * Aviso :=
  let material_ := PyStr.strip (PyStr.lower entrada_material) in
  if Dict.mem String.eqb (precios_materiales sistema) material_ then
    match entrada_precio with
    | Some nuevo_precio =>
        if (0 <? nuevo_precio)%float then
          (set_precios (Dict.set String.eqb (precios_materiales sistema)
                                 material_ nuevo_precio) sistema,
           PrecioActualizado)
        else (sistema, PrecioNoPositivo)
    | None => (sistema, PrecioInvalido)
    end
  else (sistema, MaterialNoEncontrado).

(** ** Sequences of operations *)

Inductive Operacion : Type :=
| OpAgregar (ahora : datetime) (nombre_ telefono_ direccion_ : string)
| OpRegistrar (ahora : datetime) (cliente_id : Z) (material_ : string)
              (peso_ : float) (precio : option float).

(** The state after one operation, whether it returned or raised (the menu
    reports the exception and goes on). *)
Definition ejecutar (op : Operacion) (st : Estado) : Estado :=
  match op with
  | OpAgregar ahora n t d => fst (agregar_cliente ahora n t d st)
  | OpRegistrar ahora id m p pr => fst (registrar_compra ahora id m p pr st)
  end.

Definition ejecutar_todas (ops : list Operacion) (st : Estado) : Estado :=
  fold_left (fun s op => ejecutar op s) ops st.

(** The totals kept on a customer are those of its history. *)
Definition totales_coherentes (c : Cliente) : Prop :=
  compras_totales c = py_sum (map total (historial c)) /\
  peso_total c = py_sum (map peso (historial c)) /\
  num_transacciones c = Z.of_nat (List.length (historial c)).

(** ** Searching, reporting and ranking *)

(** [sub in s] on strings *)
Fixpoint str_in (sub s : string) : bool :=
  String.prefix sub s ||
  match s with
  | EmptyString => false
  | String _ r => str_in sub r
  end.

(** [list.sort] and [sorted] are stable.  [antes y x] tells that [y] has to
    come before [x] (its key is smaller, or greater when [reverse=True]);
    an element goes after those that have to come before it and ahead of
    the rest, so elements with equal keys keep their order.  For keys that
    [<] orders (strings, integers, floats that are numbers) this is the
    list Python computes. *)
Fixpoint insertar {A : Type} (antes : A -> A -> bool) (x : A) (l : list A) : list A :=
  match l with
  | [] => [x]
  | y :: r => if antes y x then y :: insertar antes x r else x :: l
  end.

Definition ordenar {A : Type} (antes : A -> A -> bool) (l : list A) : list A :=
  fold_right (insertar antes) [] l.

(** [l[:n]] *)
Definition hasta {A : Type} (n : Z) (l : list A) : list A :=
  if (0 <=? n)%Z then firstn (Z.to_nat n) l
  else firstn (List.length l - Z.to_nat (- n)) l.

(** [l[-5:]] *)
Definition ultimas_5 {A : Type} (l : list A) : list A :=
  skipn (List.length l - 5) l.

(** The test of [buscar_cliente] on one customer. *)
Definition coincide (termino termino_lower : string) (datos : Cliente) : bool :=
  str_in termino_lower (PyStr.lower (nombre datos)) ||
  str_in termino (telefono datos) ||
  str_in termino_lower (PyStr.lower (direccion datos)).

Definition buscar_cliente (termino : string) (st : Estado) : list (Z * Cliente) :=
  if String.eqb (PyStr.strip termino) "" then []
  else
    let termino_lower := PyStr.strip (PyStr.lower termino) in
    let resultados :=
      filter (fun kv => activo (snd kv) && coincide termino termino_lower (snd kv))
             (clientes st) in
    ordenar (fun y x => String.ltb (nombre (snd y)) (nombre (snd x))) resultados.

(** The figures [reporte_cliente] keeps for one material. *)
Record Stats : Type := {
  stats_peso : float;
  stats_total : float;
  stats_count : Z
}.

(** One turn of the loop that fills [materiales_count]. *)
Definition contar_material (materiales_count : Dict.t (K := string) (V := Stats))
    (compra : Compra) : Dict.t (K := string) (V := Stats) :=
  let mat := material compra in
  let d :=
    if Dict.mem String.eqb materiales_count mat then materiales_count
    else Dict.set String.eqb materiales_count mat
           {| stats_peso := 0%float; stats_total := 0%float; stats_count := 0%Z |} in
  match Dict.get String.eqb d mat with
  | Some s =>
      Dict.set String.eqb d mat
        {| stats_peso := (stats_peso s + peso compra)%float;
           stats_total := (stats_total s + total compra)%float;
           stats_count := (stats_count s + 1)%Z |}
  | None => d
  end.

Definition materiales_count_de (h : list Compra) : Dict.t (K := string) (V := Stats) :=
  fold_left contar_material h [].

(** What [reporte_cliente] prints: the customer's data, and when the
    history is not empty its last five purchases and the figures by
    material, greatest total first. *)
Record Reporte : Type := {
  rep_id : Z;
  rep_cliente : Cliente;
  rep_ultimas : list Compra;
  rep_materiales : list (string * Stats)
}.

(** [None] when the function prints that the customer is not found. *)
Definition reporte_cliente (cliente_id : Z) (st : Estado) : option Reporte :=
  match Dict.get Z.eqb (clientes st) cliente_id with
  | None => None
  | Some cliente =>
      Some
        (match historial cliente with
         | [] =>
             {| rep_id := cliente_id; rep_cliente := cliente;
                rep_ultimas := []; rep_materiales := [] |}
         | _ =>
             {| rep_id := cliente_id; rep_cliente := cliente;
                rep_ultimas := ultimas_5 (historial cliente);
                rep_materiales :=
                  ordenar (fun y x => (stats_total (snd x) <? stats_total (snd y))%float)
                          (materiales_count_de (historial cliente)) |}
         end)
  end.

(** The value [top_clientes] prints beside a name. *)
Inductive Valor : Type :=
| EnPesos (v : float)          (* "$…" *)
| EnKilos (v : float)          (* "…kg" *)
| EnCompras (n : Z).           (* "… compras" *)

(** [criterio] once the unknown ones are replaced by ["total"]. *)
Definition criterio_efectivo (criterio : string) : string :=
  if String.eqb criterio "total" || String.eqb criterio "peso"
     || String.eqb criterio "transacciones"
  then criterio else "total".

(** [sorted(clientes_activos, key=lambda x: x[1][campo], reverse=True)] *)
Definition ordenar_por (criterio : string) (l : list (Z * Cliente)) : list (Z * Cliente) :=
  if String.eqb criterio "total" then
    ordenar (fun y x => (compras_totales (snd x) <? compras_totales (snd y))%float) l
  else if String.eqb criterio "peso" then
    ordenar (fun y x => (peso_total (snd x) <? peso_total (snd y))%float) l
  else
    ordenar (fun y x => (num_transacciones (snd x) <? num_transacciones (snd y))%Z) l.

Definition valor_de (criterio : string) (datos : Cliente) : Valor :=
  if String.eqb criterio "total" then EnPesos (compras_totales datos)
  else if String.eqb criterio "peso" then EnKilos (peso_total datos)
  else EnCompras (num_transacciones datos).

(** The customers [top_clientes] lists, in order; [None] when it prints
    that there are no customers. *)
Definition top_seleccion (limite : Z) (criterio : string) (st : Estado)
  : option (list (Z * Cliente)) :=
  match clientes st with
  | [] => None
  | _ =>
      let criterio := criterio_efectivo criterio in
      let clientes_activos := filter (fun kv => activo (snd kv)) (clientes st) in
      Some (hasta limite (ordenar_por criterio clientes_activos))
  end.

(** The lines [top_clientes] prints: position from 1, name and value. *)
Definition top_clientes (limite : Z) (criterio : string) (st : Estado)
  : option (list (nat * string * Valor)) :=
  option_map
    (fun l =>
       map (fun ikv => (fst ikv, nombre (snd (snd ikv)),
                        valor_de (criterio_efectivo criterio) (snd (snd ikv))))
           (combine (seq 1 (List.length l)) l))
    (top_seleccion limite criterio st).

(** ** The menu: option 1 *)

(** What option 1 of [menu_principal] does with the three lines typed: each
    is trimmed, an empty name is refused before the call, and a
    [ValueError] of the call is reported; the state is the one the call
    leaves. *)
Definition opcion_1 (ahora : datetime) (linea_nombre linea_telefono linea_direccion : string)
    (st : Estado) : Estado :=
  let nombre_ := PyStr.strip linea_nombre in
  if String.eqb nombre_ "" then st
  else fst (agregar_cliente ahora nombre_ (PyStr.strip linea_telefono)
                            (PyStr.strip linea_direccion) st).

(** The state after option 1 has been chosen several times; each time has
    its clock and its three lines. *)
Definition opcion_1_todas (entradas : list (datetime * (string * string * string)))
    (st : Estado) : Estado :=
  fold_left
    (fun s e => opcion_1 (fst e) (fst (fst (snd e))) (snd (fst (snd e))) (snd (snd e)) s)
    entradas st.

(** [configurar_precios] called several times, each with what is typed. *)
Definition configurar_todas (entradas : list (string * option float)) (st : Estado)
  : Estado :=
  fold_left (fun s e => fst (configurar_precios (fst e) (snd e) s)) entradas st.

(** ** The operations over Python's own string methods *)

(** [str.lower], [str.strip] and [str.title] act on the whole of Unicode
    ("CARTÓN" lower-cases to "cartón", a no-break space is trimmed), which
    the functions of [PyStr] do on ASCII text only.  Where the outcome of
    an operation rests on them, the operation is also given with the three
    methods as a parameter, and what is proved of it holds for the methods
    Python has; [metodos_ascii] is the instance that the operations above
    are. *)
Record Metodos : Type := {
  m_lower : string -> string;
  m_strip : string -> string;
  m_title : string -> string
}.

Definition metodos_ascii : Metodos :=
  {| m_lower := PyStr.lower; m_strip := PyStr.strip; m_title := PyStr.title |}.

Definition cliente_nuevo_con (T : Metodos) (ahora : datetime)
    (nombre_ telefono_ direccion_ : string) : Cliente :=
  {| nombre := m_title T (m_strip T nombre_);
     telefono := m_strip T telefono_;
     direccion := m_strip T direccion_;
     fecha_registro := Strftime.fecha ahora;
     compras_totales := 0.0%float;
     peso_total := 0.0%float;
     num_transacciones := 0%Z;
     historial := [];
     activo := true |}.

Definition agregar_cliente_con (T : Metodos) (ahora : datetime)
    (nombre_ telefono_ direccion_ : string) : M Z :=
  if String.eqb (m_strip T nombre_) "" then
    raise (ValueError "El nombre no puede estar vacío")
  else
    cs <- gets clientes ;;
    match buscar_telefono cs telefono_ with
    | Some cliente_id => ret cliente_id
    | None =>
        let cliente_id := (py_max (Dict.keys cs) 0 + 1)%Z in
        modify (set_clientes
                  (Dict.set Z.eqb cs cliente_id
                            (cliente_nuevo_con T ahora nombre_ telefono_ direccion_))) ;;
        guardar_datos ;;
        ret cliente_id
    end.

Definition registrar_compra_con (T : Metodos) (ahora : datetime) (cliente_id : Z)
    (material_ : string) (peso_ : float) (precio : option float) : M float :=
  cs <- gets clientes ;;
  if negb (Dict.mem Z.eqb cs cliente_id) then
    raise (ValueError ("Cliente con ID " ++ PyStr.str cliente_id ++ " no encontrado"))
  else if (peso_ <=? 0)%float then
    raise (ValueError "El peso debe ser mayor a 0")
  else
    let material_lower := m_lower T material_ in
    ps <- gets precios_materiales ;;
    let precio_kg_ :=
      match precio with
      | None => Dict.get_default String.eqb ps material_lower 5.0%float
      | Some p => p
      end in
    let total_ := (peso_ * precio_kg_)%float in
    let compra :=
      {| fecha := Strftime.fecha_hora ahora;
         material := m_title T material_;
         peso := peso_;
         precio_kg := precio_kg_;
         total := total_;
         mes := Strftime.mes ahora |} in
    match Dict.get Z.eqb cs cliente_id with
    | None => raise (KeyError (PyStr.str cliente_id))
    | Some cliente =>
        modify (set_clientes
                  (Dict.set Z.eqb cs cliente_id (anotar_compra cliente compra))) ;;
        guardar_datos ;;
        ret total_
    end.

Definition configurar_precios_con (T : Metodos) (entrada_material : string)
    (entrada_precio : option float) (sistema : Estado) : Estado * Aviso :=
  let material_ := m_strip T (m_lower T entrada_material) in
  if Dict.mem String.eqb (precios_materiales sistema) material_ then
    match entrada_precio with
    | Some nuevo_precio =>
        if (0 <? nuevo_precio)%float then
          (set_precios (Dict.set String.eqb (precios_materiales sistema)
                                 material_ nuevo_precio) sistema,
           PrecioActualizado)
        else (sistema, PrecioNoPositivo)
    | None => (sistema, PrecioInvalido)
    end
  else (sistema, MaterialNoEncontrado).

Definition coincide_con (T : Metodos) (termino termino_lower : string) (datos : Cliente)
  : bool :=
  str_in termino_lower (m_lower T (nombre datos)) ||
  str_in termino (telefono datos) ||
  str_in termino_lower (m_lower T (direccion datos)).

Definition buscar_cliente_con (T : Metodos) (termino : string) (st : Estado)
  : list (Z * Cliente) :=
  if String.eqb (m_strip T termino) "" then []
  else
    let termino_lower := m_strip T (m_lower T termino) in
    let resultados :=
      filter (fun kv => activo (snd kv) && coincide_con T termino termino_lower (snd kv))
             (clientes st) in
    ordenar (fun y x => String.ltb (nombre (snd y)) (nombre (snd x))) resultados.

(** ** Auxiliary definitions of the proofs *)

(** The state once the ledger [cs] is in memory and written to the file. *)
Definition persistido (cs : Clientes) (st : Estado) : Estado :=
  fst (guardar_datos (set_clientes cs st)).

Definition compra_de (ahora : datetime) (material_ : string) (peso_ precio_kg_ : float)
  : Compra :=
  {| fecha := Strftime.fecha_hora ahora;
     material := PyStr.title material_;
     peso := peso_;
     precio_kg := precio_kg_;
     total := (peso_ * precio_kg_)%float;
     mes := Strftime.mes ahora |}.

Definition precio_resuelto (ps : Precios) (material_ : string) (precio : option float)
  : float :=
  match precio with
  | None => Dict.get_default String.eqb ps (PyStr.lower material_) 5.0%float
  | Some p => p
  end.

Definition todos_coherentes (cs : Clientes) : Prop :=
  forall id c, In (id, c) cs -> totales_coherentes c.

(** Every price of the table is above zero. *)
Definition precios_positivos (ps : Precios) : Prop :=
  forall k v, In (k, v) ps -> (0 <? v)%float = true.

(** No two customers of the ledger have the same telephone. *)
Definition telefonos_distintos (cs : Clientes) : Prop :=
  NoDup (map (fun kv => telefono (snd kv)) cs).

(** The purchases of a history that are of one material. *)
Definition compras_de_material (m : string) (h : list Compra) : list Compra :=
  filter (fun c => String.eqb (material c) m) h.

(** [c'] is [c] after some purchases: the history of [c] with purchases
    added at its end, and the same name, telephone, address, date of
    registration and active flag. *)
Definition continua (c c' : Cliente) : Prop :=
  (exists nuevas, historial c' = (historial c ++ nuevas)%list) /\
  nombre c' = nombre c /\
  telefono c' = telefono c /\
  direccion c' = direccion c /\
  fecha_registro c' = fecha_registro c /\
  activo c' = activo c.

(** The figures of one material over a history: the weights and the
    totals of its purchases added from the first to the last, and their
    number. *)
Definition stats_de (m : string) (h : list Compra) : Stats :=
  {| stats_peso := py_sum (map peso (compras_de_material m h));
     stats_total := py_sum (map total (compras_de_material m h));
     stats_count := Z.of_nat (List.length (compras_de_material m h)) |}.

(** The file is what a restart would read the ledger from. *)
Definition en_disco (st : Estado) : Prop :=
  NoDup (Dict.keys (clientes st)) /\
  clientes (init (archivo_datos st) (disco st)) = clientes st.

(** What [materiales_count] holds once the purchases of [h] are counted. *)
Definition cuenta_de (h : list Compra) (d : Dict.t (K := string) (V := Stats)) : Prop :=
  NoDup (Dict.keys d) /\
  forall m,
    Dict.get String.eqb d m =
    match compras_de_material m h with
    | [] => None
    | _ => Some (stats_de m h)
    end.

(** ** Sample data *)

Definition t0 : datetime :=
  {| year := 2025; month := 6; day := 14; hour := 9; minute := 5; second := 7 |}.

Definition sistema_vacio : Estado := init "clientes.json" [].

Definition con_juan : Estado :=
  fst (agregar_cliente t0 "Juan Pérez" "555-1234" "Av. Central 10" sistema_vacio).


Definition con_juan_y_ana : Estado :=
  fst (agregar_cliente t0 "ana ruiz" "555-9999" "Calle 2" con_juan).

Definition operaciones_ejemplo : list Operacion :=
  [ OpAgregar t0 "Juan Pérez" "555-1234" "Av. Central 10";
    OpRegistrar t0 1 "carton" 10%float None;
    OpRegistrar t0 7 "papel" 1%float None;
    OpRegistrar t0 1 "cobre" (-1)%float None;
    OpRegistrar t0 1 "aluminio" 2%float None ].

Definition juan_final : Cliente :=
  match Dict.get Z.eqb (clientes (ejecutar_todas operaciones_ejemplo sistema_vacio)) 1%Z with
  | Some c => c
  | None => cliente_nuevo t0 "" "" ""
  end.

Definition disco_clave_mala : Disco :=
  [("clientes.json",
    Json [("1", cliente_nuevo t0 "a" "1" ""); ("x2", cliente_nuevo t0 "b" "2" "")])].

Definition disco_clave_repetida : Disco :=
  [("clientes.json",
    Json [("1", cliente_nuevo t0 "a" "1" ""); ("01", cliente_nuevo t0 "b" "2" "")])].

(** * Properties *)

(** ** Floats: the two comparisons of the source exclude each other *)

Lemma ltb_zero_not_leb (x : float) :
  (0 <? x)%float = true -> (x <=? 0)%float = false.
Proof.
  rewrite ltb_spec, leb_spec.
  change (Prim2SF 0%float) with (S754_zero false).
  destruct (Prim2SF x) as [s | s | | s m e]; try destruct s;
    cbn; intros H; try reflexivity; discriminate H.
Qed.

Lemma leb_zero_not_ltb (x : float) :
  (x <=? 0)%float = true -> (0 <? x)%float = false.
Proof.
  intros H. destruct (0 <? x)%float eqn:E; [ | reflexivity ].
  apply ltb_zero_not_leb in E. congruence.
Qed.

Lemma py_sum_snoc (xs : list float) (x : float) :
  py_sum (xs ++ [x])%list = (py_sum xs + x)%float.
Proof. unfold py_sum. rewrite fold_left_app. reflexivity. Qed.

(** ** Dictionaries *)

Section DictFacts.
Context {K V : Type}.
Variable eqb : K -> K -> bool.
Hypothesis eqb_eq : forall a b, eqb a b = true <-> a = b.

Let eqb_refl (a : K) : eqb a a = true.
Proof. apply eqb_eq. reflexivity. Qed.

Lemma get_set_same (d : Dict.t) (k : K) (v : V) :
  Dict.get eqb (Dict.set eqb d k v) k = Some v.
Proof.
  induction d as [ | [k' v'] r IH]; simpl.
  - rewrite eqb_refl. reflexivity.
  - destruct (eqb k' k) eqn:E; simpl; rewrite E; [ reflexivity | exact IH ].
Qed.

Lemma get_set_other (d : Dict.t) (k k0 : K) (v : V) :
  k0 <> k -> Dict.get eqb (Dict.set eqb d k v) k0 = Dict.get eqb d k0.
Proof.
  intros Hne. induction d as [ | [k' v'] r IH]; simpl.
  - destruct (eqb k k0) eqn:E; [ | reflexivity ].
    apply eqb_eq in E. congruence.
  - destruct (eqb k' k) eqn:E; simpl.
    + apply eqb_eq in E. subst k'.
      destruct (eqb k k0) eqn:E0; [ | reflexivity ].
      apply eqb_eq in E0. congruence.
    + destruct (eqb k' k0); [ reflexivity | exact IH ].
Qed.

Lemma set_absent (d : Dict.t) (k : K) (v : V) :
  Dict.get eqb d k = None -> Dict.set eqb d k v = (d ++ [(k, v)])%list.
Proof.
  induction d as [ | [k' v'] r IH]; simpl; intros H.
  - reflexivity.
  - destruct (eqb k' k); [ discriminate H | ].
    rewrite IH by exact H. reflexivity.
Qed.

Lemma get_None_not_key (d : Dict.t (V := V)) (k : K) :
  Dict.get eqb d k = None <-> ~ In k (Dict.keys d).
Proof.
  induction d as [ | [k' v'] r IH]; simpl.
  - split; [ intros _ [] | reflexivity ].
  - destruct (eqb k' k) eqn:E.
    + apply eqb_eq in E. split; [ discriminate | intros H; elim H; auto ].
    + rewrite IH. split.
      * intros H [H1 | H1]; [ | auto ].
        apply eqb_eq in H1. congruence.
      * intros H H1. apply H. right. exact H1.
Qed.

Lemma get_In (d : Dict.t) (k : K) (v : V) :
  Dict.get eqb d k = Some v -> In (k, v) d.
Proof.
  induction d as [ | [k' v'] r IH]; simpl; [ discriminate | ].
  destruct (eqb k' k) eqn:E.
  - apply eqb_eq in E. intros [= ->]. left. congruence.
  - intros H. right. auto.
Qed.

Lemma In_set (d : Dict.t) (k k0 : K) (v v0 : V) :
  In (k0, v0) (Dict.set eqb d k v) -> v0 = v \/ In (k0, v0) d.
Proof.
  induction d as [ | [k' v'] r IH]; simpl.
  - intros [[= <- <-] | []]. left. reflexivity.
  - destruct (eqb k' k); simpl.
    + intros [[= <- <-] | H]; [ left; reflexivity | right; right; exact H ].
    + intros [H | H]; [ right; left; exact H | ].
      destruct (IH H); [ left | right; right ]; assumption.
Qed.

Lemma keys_set_present (d : Dict.t) (k : K) (v v0 : V) :
  Dict.get eqb d k = Some v0 -> Dict.keys (Dict.set eqb d k v) = Dict.keys d.
Proof.
  induction d as [ | [k' v'] r IH]; simpl; [ discriminate | ].
  destruct (eqb k' k); simpl; intros H.
  - reflexivity.
  - f_equal. exact (IH H).
Qed.
End DictFacts.

(** ** Maximum of the keys *)

Lemma fold_max_ge (r : list Z) (x : Z) :
  (x <= fold_left Z.max r x)%Z /\ forall y, In y r -> (y <= fold_left Z.max r x)%Z.
Proof.
  revert x. induction r as [ | a r IH]; simpl; intros x.
  - split; [ lia | intros y [] ].
  - destruct (IH (Z.max x a)) as [H1 H2]. split; [ lia | ].
    intros y [<- | Hy]; [ lia | auto ].
Qed.

Lemma fold_max_In (r : list Z) (x : Z) : In (fold_left Z.max r x) (x :: r).
Proof.
  revert x. induction r as [ | a r IH]; simpl; intros x.
  - left. reflexivity.
  - destruct (IH (Z.max x a)) as [H | H].
    + destruct (Z.max_spec x a) as [[_ E] | [_ E]]; rewrite E in *; auto.
    + right. right. exact H.
Qed.

Lemma py_max_upper (xs : list Z) (d y : Z) : In y xs -> (y <= py_max xs d)%Z.
Proof.
  destruct xs as [ | x r]; simpl; [ intros [] | ].
  destruct (fold_max_ge r x) as [H1 H2].
  intros [<- | H]; auto.
Qed.

Lemma py_max_In (xs : list Z) (d : Z) : xs <> [] -> In (py_max xs d) xs.
Proof.
  destruct xs as [ | x r]; [ congruence | intros _ ].
  apply fold_max_In.
Qed.

Lemma py_max_succ_fresh (cs : Clientes) :
  Dict.get Z.eqb cs (py_max (Dict.keys cs) 0 + 1)%Z = None.
Proof.
  apply (get_None_not_key Z.eqb Z.eqb_eq). intros H.
  apply (py_max_upper _ 0%Z) in H. lia.
Qed.

(** ** The keys of a dictionary stay distinct *)

Lemma NoDup_snoc {A : Type} (l : list A) (a : A) :
  NoDup l -> ~ In a l -> NoDup (l ++ [a])%list.
Proof.
  induction l as [ | b l IH]; cbn; intros Hnd Hin.
  - constructor; [ intros [] | constructor ].
  - inversion Hnd as [ | ? ? Hb Hl]; subst. constructor.
    + intros H. apply in_app_or in H. destruct H as [H | [H | []]]; [ auto | ].
      apply Hin. left. symmetry. exact H.
    + apply IH; [ exact Hl | ]. intros H. apply Hin. right. exact H.
Qed.

Lemma set_claves_distintas (cs : Clientes) (k : Z) (c : Cliente) :
  NoDup (Dict.keys cs) -> NoDup (Dict.keys (Dict.set Z.eqb cs k c)).
Proof.
  intros Hnd. destruct (Dict.get Z.eqb cs k) as [c0 | ] eqn:E.
  - rewrite (keys_set_present Z.eqb _ _ _ _ E). exact Hnd.
  - rewrite (set_absent Z.eqb _ _ _ E). unfold Dict.keys. rewrite map_app.
    apply NoDup_snoc; [ exact Hnd | ].
    apply (get_None_not_key Z.eqb Z.eqb_eq). exact E.
Qed.

(** ** The two operations on the ledger, case by case *)

Lemma clientes_persistido (cs : Clientes) (st : Estado) :
  clientes (persistido cs st) = cs.
Proof. reflexivity. Qed.

Lemma buscar_telefono_Some (cs : Clientes) (tel : string) (id : Z) :
  buscar_telefono cs tel = Some id ->
  exists c, In (id, c) cs /\ telefono c = tel.
Proof.
  induction cs as [ | [k c] r IH]; simpl; [ discriminate | ].
  destruct (String.eqb (telefono c) tel) eqn:E.
  - intros [= ->]. apply String.eqb_eq in E. exists c. auto.
  - intros H. destruct (IH H) as [c' [H1 H2]]. exists c'. auto.
Qed.

Lemma buscar_telefono_None (cs : Clientes) (tel : string) :
  buscar_telefono cs tel = None <->
  forall id c, In (id, c) cs -> telefono c <> tel.
Proof.
  induction cs as [ | [k c] r IH]; simpl.
  - split; [ intros _ id c [] | reflexivity ].
  - destruct (String.eqb (telefono c) tel) eqn:E.
    + apply String.eqb_eq in E. split; [ discriminate | ].
      intros H. elim (H k c); auto.
    + apply String.eqb_neq in E. rewrite IH. split.
      * intros H id c' [[= <- <-] | H1]; [ exact E | eauto ].
      * intros H id c' H1. apply (H id). right. exact H1.
Qed.

Lemma agregar_cliente_vacio ahora n t d st :
  PyStr.strip n = "" ->
  agregar_cliente ahora n t d st =
  (st, inl (ValueError "El nombre no puede estar vacío")).
Proof. intros H. unfold agregar_cliente. rewrite H. reflexivity. Qed.

Lemma agregar_cliente_existente ahora n t d st id :
  PyStr.strip n <> "" ->
  buscar_telefono (clientes st) t = Some id ->
  agregar_cliente ahora n t d st = (st, inr id).
Proof.
  intros Hn Hb. unfold agregar_cliente.
  apply String.eqb_neq in Hn. rewrite Hn.
  unfold bind, gets. rewrite Hb. reflexivity.
Qed.

Lemma agregar_cliente_alta ahora n t d st :
  PyStr.strip n <> "" ->
  buscar_telefono (clientes st) t = None ->
  let id := (py_max (Dict.keys (clientes st)) 0 + 1)%Z in
  agregar_cliente ahora n t d st =
  (persistido (clientes st ++ [(id, cliente_nuevo ahora n t d)])%list st, inr id).
Proof.
  intros Hn Hb id. unfold agregar_cliente.
  apply String.eqb_neq in Hn. rewrite Hn.
  unfold bind, gets. rewrite Hb. cbn.
  rewrite (set_absent Z.eqb) by apply py_max_succ_fresh.
  reflexivity.
Qed.

Lemma registrar_compra_desconocido ahora id m p pr st :
  Dict.get Z.eqb (clientes st) id = None ->
  registrar_compra ahora id m p pr st =
  (st, inl (ValueError ("Cliente con ID " ++ PyStr.str id ++ " no encontrado"))).
Proof.
  intros H. unfold registrar_compra, bind, gets, Dict.mem.
  rewrite H. reflexivity.
Qed.

Lemma registrar_compra_peso ahora id m p pr st c :
  Dict.get Z.eqb (clientes st) id = Some c ->
  (p <=? 0)%float = true ->
  registrar_compra ahora id m p pr st =
  (st, inl (ValueError "El peso debe ser mayor a 0")).
Proof.
  intros H Hp. unfold registrar_compra, bind, gets, Dict.mem.
  cbv beta iota. rewrite H. cbv beta iota. rewrite Hp. reflexivity.
Qed.

Lemma registrar_compra_hecha ahora id m p pr st c :
  Dict.get Z.eqb (clientes st) id = Some c ->
  (p <=? 0)%float = false ->
  let precio_kg_ := precio_resuelto (precios_materiales st) m pr in
  registrar_compra ahora id m p pr st =
  (persistido (Dict.set Z.eqb (clientes st) id
                 (anotar_compra c (compra_de ahora m p precio_kg_))) st,
   inr (p * precio_kg_)%float).
Proof.
  intros H Hp. unfold registrar_compra, bind, gets, Dict.mem.
  cbv beta iota. rewrite H. cbv beta iota. rewrite Hp.
  destruct pr; reflexivity.
Qed.

(** ** Coherence of the running totals *)

Lemma cliente_nuevo_coherente ahora n t d :
  totales_coherentes (cliente_nuevo ahora n t d).
Proof. repeat split. Qed.

Lemma historial_anotar (c : Cliente) (compra : Compra) :
  historial (anotar_compra c compra) = (historial c ++ [compra])%list.
Proof. reflexivity. Qed.

Lemma compras_totales_anotar (c : Cliente) (compra : Compra) :
  compras_totales (anotar_compra c compra) = (compras_totales c + total compra)%float.
Proof. reflexivity. Qed.

Lemma peso_total_anotar (c : Cliente) (compra : Compra) :
  peso_total (anotar_compra c compra) = (peso_total c + peso compra)%float.
Proof. reflexivity. Qed.

Lemma num_transacciones_anotar (c : Cliente) (compra : Compra) :
  num_transacciones (anotar_compra c compra) = (num_transacciones c + 1)%Z.
Proof. reflexivity. Qed.

Lemma anotar_compra_coherente (c : Cliente) (compra : Compra) :
  totales_coherentes c -> totales_coherentes (anotar_compra c compra).
Proof.
  intros (Ht & Hp & Hn). unfold totales_coherentes.
  rewrite historial_anotar, compras_totales_anotar, peso_total_anotar,
    num_transacciones_anotar.
  rewrite !map_app. cbn [map].
  rewrite !py_sum_snoc, length_app.
  change (List.length [compra]) with 1%nat.
  rewrite <- Ht, <- Hp, Hn. repeat split. lia.
Qed.

Lemma ejecutar_coherente (op : Operacion) (st : Estado) :
  todos_coherentes (clientes st) -> todos_coherentes (clientes (ejecutar op st)).
Proof.
  intros Hst. destruct op as [ahora n t d | ahora id m p pr]; simpl.
  - destruct (String.eqb (PyStr.strip n) "") eqn:En.
    + apply String.eqb_eq in En.
      rewrite agregar_cliente_vacio by exact En. exact Hst.
    + apply String.eqb_neq in En.
      destruct (buscar_telefono (clientes st) t) as [id | ] eqn:Eb.
      * rewrite (agregar_cliente_existente _ _ _ _ _ id) by assumption. exact Hst.
      * rewrite agregar_cliente_alta by assumption. cbn.
        intros k c Hin. apply in_app_or in Hin.
        destruct Hin as [Hin | [[= _ <-] | []]]; [ eauto | ].
        apply cliente_nuevo_coherente.
  - destruct (Dict.get Z.eqb (clientes st) id) as [c | ] eqn:Eg.
    + destruct (p <=? 0)%float eqn:Ep.
      * rewrite (registrar_compra_peso _ _ _ _ _ _ c) by assumption. exact Hst.
      * rewrite (registrar_compra_hecha _ _ _ _ _ _ c) by assumption. cbn.
        intros k c' Hin. apply In_set in Hin.
        destruct Hin as [-> | Hin]; [ | eauto ].
        apply anotar_compra_coherente.
        apply (Hst id). apply (get_In Z.eqb Z.eqb_eq). exact Eg.
    + rewrite registrar_compra_desconocido by assumption. exact Hst.
Qed.

Lemma ejecutar_todas_coherente (ops : list Operacion) (st : Estado) :
  todos_coherentes (clientes st) ->
  todos_coherentes (clientes (ejecutar_todas ops st)).
Proof.
  revert st. induction ops as [ | op ops IH]; intros st H; simpl.
  - exact H.
  - apply IH. apply ejecutar_coherente. exact H.
Qed.

Lemma precios_persistido (cs : Clientes) (st : Estado) :
  precios_materiales (persistido cs st) = precios_materiales st.
Proof. reflexivity. Qed.

Lemma ejecutar_claves_distintas (op : Operacion) (st : Estado) :
  NoDup (Dict.keys (clientes st)) -> NoDup (Dict.keys (clientes (ejecutar op st))).
Proof.
  intros Hst. destruct op as [ahora n t d | ahora id m p pr]; simpl.
  - destruct (String.eqb (PyStr.strip n) "") eqn:En.
    + apply String.eqb_eq in En.
      rewrite agregar_cliente_vacio by exact En. exact Hst.
    + apply String.eqb_neq in En.
      destruct (buscar_telefono (clientes st) t) as [id | ] eqn:Eb.
      * rewrite (agregar_cliente_existente _ _ _ _ _ id) by assumption. exact Hst.
      * rewrite agregar_cliente_alta by assumption. cbn [fst].
        rewrite clientes_persistido.
        rewrite <- (set_absent Z.eqb) by apply py_max_succ_fresh.
        apply set_claves_distintas. exact Hst.
  - destruct (Dict.get Z.eqb (clientes st) id) as [c | ] eqn:Eg.
    + destruct (p <=? 0)%float eqn:Ep.
      * rewrite (registrar_compra_peso _ _ _ _ _ _ c) by assumption. exact Hst.
      * rewrite (registrar_compra_hecha _ _ _ _ _ _ c) by assumption. cbn [fst].
        rewrite clientes_persistido. apply set_claves_distintas. exact Hst.
    + rewrite registrar_compra_desconocido by assumption. exact Hst.
Qed.

Lemma ejecutar_todas_claves_distintas (ops : list Operacion) (st : Estado) :
  NoDup (Dict.keys (clientes st)) ->
  NoDup (Dict.keys (clientes (ejecutar_todas ops st))).
Proof.
  revert st. induction ops as [ | op ops IH]; intros st H; simpl.
  - exact H.
  - apply IH. apply ejecutar_claves_distintas. exact H.
Qed.

(** ** Recording a purchase *)

(** The operations given first are those over [metodos_ascii]. *)
Lemma operaciones_ascii :
  (forall ahora n t d st,
      agregar_cliente_con metodos_ascii ahora n t d st = agregar_cliente ahora n t d st) /\
  (forall ahora id m p pr st,
      registrar_compra_con metodos_ascii ahora id m p pr st
      = registrar_compra ahora id m p pr st) /\
  (forall em ep st,
      configurar_precios_con metodos_ascii em ep st = configurar_precios em ep st) /\
  (forall termino st,
      buscar_cliente_con metodos_ascii termino st = buscar_cliente termino st).
Proof. repeat split. Qed.

Lemma registrar_compra_con_hecha T ahora id m p pr st c :
  Dict.get Z.eqb (clientes st) id = Some c ->
  (p <=? 0)%float = false ->
  let precio_kg_ :=
    match pr with
    | Some x => x
    | None => Dict.get_default String.eqb (precios_materiales st) (m_lower T m) 5.0%float
    end in
  registrar_compra_con T ahora id m p pr st =
  (persistido (Dict.set Z.eqb (clientes st) id
                 (anotar_compra c
                    {| fecha := Strftime.fecha_hora ahora;
                       material := m_title T m;
                       peso := p;
                       precio_kg := precio_kg_;
                       total := (p * precio_kg_)%float;
                       mes := Strftime.mes ahora |})) st,
   inr (p * precio_kg_)%float).
Proof.
  intros H Hp. unfold registrar_compra_con, bind, gets, Dict.mem.
  cbv beta iota. rewrite H. cbv beta iota. rewrite Hp.
  destruct pr; reflexivity.
Qed.

(** C1.  Whatever [str.lower] and [str.title] are ([T]): for a customer of
    the ledger and a weight above zero, [registrar_compra] returns
    [peso * precio_kg], where [precio_kg] is the price given or else the
    price the table has for the lower-cased material, 5.0 when it has
    none; and the customer's history gains one purchase at its end, holding
    the material (in title case, as every stored material is), the weight,
    the price per kilogram and the total.  With the initial price table,
    and "carton" and "aluminio" being their own lower case, recording 10 of
    "carton" and then 2 of "aluminio" for a customer without purchases
    returns 25.0 and 50.0 and leaves the customer with 75.0 spent, a weight
    of 12 and 2 transactions. *)
Theorem registrar_compra_con_total_e_historial (T : Metodos) :
  (forall ahora id m p pr st c,
      Dict.get Z.eqb (clientes st) id = Some c ->
      (0 <? p)%float = true ->
      let precio_kg_ :=
        match pr with
        | Some x => x
        | None => Dict.get_default String.eqb (precios_materiales st)
                                   (m_lower T m) 5.0%float
        end in
      let r := registrar_compra_con T ahora id m p pr st in
      snd r = inr (p * precio_kg_)%float /\
      exists c',
        Dict.get Z.eqb (clientes (fst r)) id = Some c' /\
        historial c' =
        (historial c ++
           [ {| fecha := Strftime.fecha_hora ahora;
                material := m_title T m;
                peso := p;
                precio_kg := precio_kg_;
                total := (p * precio_kg_)%float;
                mes := Strftime.mes ahora |} ])%list) /\
  (forall ahora1 ahora2 id st c,
      m_lower T "carton" = "carton" ->
      m_lower T "aluminio" = "aluminio" ->
      precios_materiales st = precios_iniciales ->
      Dict.get Z.eqb (clientes st) id = Some c ->
      compras_totales c = 0%float ->
      peso_total c = 0%float ->
      num_transacciones c = 0%Z ->
      let r1 := registrar_compra_con T ahora1 id "carton" 10%float None st in
      let r2 := registrar_compra_con T ahora2 id "aluminio" 2%float None (fst r1) in
      snd r1 = inr 25.0%float /\
      snd r2 = inr 50.0%float /\
      exists c2,
        Dict.get Z.eqb (clientes (fst r2)) id = Some c2 /\
        compras_totales c2 = 75.0%float /\
        peso_total c2 = 12%float /\
        num_transacciones c2 = 2%Z).
Proof.
  split.
  - intros ahora id m p pr st c Hc Hp precio_kg_ r.
    apply ltb_zero_not_leb in Hp.
    subst r. rewrite (registrar_compra_con_hecha T ahora id m p pr st c Hc Hp).
    cbn [fst snd]. split; [ reflexivity | ].
    eexists. split.
    + rewrite clientes_persistido. apply (get_set_same Z.eqb Z.eqb_eq).
    + reflexivity.
  - intros ahora1 ahora2 id st c Hl1 Hl2 Hps Hc Ht Hw Hn r1 r2.
    assert (E1 : r1 =
      (persistido (Dict.set Z.eqb (clientes st) id
                     (anotar_compra c
                        {| fecha := Strftime.fecha_hora ahora1;
                           material := m_title T "carton";
                           peso := 10;
                           precio_kg := 2.5;
                           total := 25;
                           mes := Strftime.mes ahora1 |})) st,
       inr 25.0%float)).
    { subst r1.
      rewrite (registrar_compra_con_hecha T ahora1 id "carton" 10 None st c Hc eq_refl).
      rewrite Hps, Hl1. reflexivity. }
    set (c1 := anotar_compra c _) in E1.
    assert (Hc1 : Dict.get Z.eqb (clientes (fst r1)) id = Some c1).
    { rewrite E1. cbn [fst]. rewrite clientes_persistido.
      apply (get_set_same Z.eqb Z.eqb_eq). }
    assert (E2 : r2 =
      (persistido (Dict.set Z.eqb (clientes (fst r1)) id
                     (anotar_compra c1
                        {| fecha := Strftime.fecha_hora ahora2;
                           material := m_title T "aluminio";
                           peso := 2;
                           precio_kg := 25;
                           total := 50;
                           mes := Strftime.mes ahora2 |})) (fst r1),
       inr 50.0%float)).
    { subst r2.
      rewrite (registrar_compra_con_hecha T ahora2 id "aluminio" 2 None (fst r1) c1
                 Hc1 eq_refl).
      rewrite E1. cbn [fst]. rewrite precios_persistido, Hps, Hl2. reflexivity. }
    split; [ rewrite E1; reflexivity | ].
    split; [ rewrite E2; reflexivity | ].
    eexists. split.
    + rewrite E2. cbn [fst]. rewrite clientes_persistido.
      apply (get_set_same Z.eqb Z.eqb_eq).
    + subst c1.
      rewrite !compras_totales_anotar, !peso_total_anotar, !num_transacciones_anotar.
      cbn [total peso]. rewrite Ht, Hw, Hn. repeat split.
Qed.

Lemma registrar_compra_con_total_e_historial_witness :
  snd (registrar_compra t0 1 "CARTON" 3%float None con_juan) = inr 7.5%float /\
  snd (registrar_compra t0 1 "Zinc" 3%float None con_juan) = inr 15.0%float /\
  snd (registrar_compra t0 1 "Vidrio" 3%float (Some 4.0%float) con_juan)
  = inr 12.0%float /\
  snd (registrar_compra t0 1 "aluminio" 2%float None
         (fst (registrar_compra t0 1 "carton" 10%float None con_juan)))
  = inr 50.0%float.
Proof.
  destruct (registrar_compra_con_total_e_historial metodos_ascii) as [H1 H2].
  pose (juan := cliente_nuevo t0 "Juan Pérez" "555-1234" "Av. Central 10").
  split; [ | split; [ | split ] ].
  - exact (proj1 (H1 t0 1%Z "CARTON" 3%float None con_juan juan eq_refl eq_refl)).
  - exact (proj1 (H1 t0 1%Z "Zinc" 3%float None con_juan juan eq_refl eq_refl)).
  - exact (proj1 (H1 t0 1%Z "Vidrio" 3%float (Some 4.0%float) con_juan juan
                     eq_refl eq_refl)).
  - exact (proj1 (proj2 (H2 t0 t0 1%Z con_juan juan
                     eq_refl eq_refl eq_refl eq_refl eq_refl eq_refl eq_refl))).
Defined.

(** C2.  After any sequence of [agregar_cliente] and [registrar_compra]
    calls from an empty ledger, every customer's [compras_totales] is the
    sum of the totals of its history, its [peso_total] the sum of the
    weights, and its [num_transacciones] the length of the history. *)
Theorem totales_coherentes_siempre (ops : list Operacion) (st : Estado) :
  clientes st = [] ->
  forall id c, In (id, c) (clientes (ejecutar_todas ops st)) ->
    compras_totales c = py_sum (map total (historial c)) /\
    peso_total c = py_sum (map peso (historial c)) /\
    num_transacciones c = Z.of_nat (List.length (historial c)).
Proof.
  intros Hvacio id c Hin.
  apply (ejecutar_todas_coherente ops st) with (id := id); [ | exact Hin ].
  rewrite Hvacio. intros k c' [].
Qed.

Lemma totales_coherentes_siempre_witness :
  compras_totales juan_final = py_sum (map total (historial juan_final)) /\
  peso_total juan_final = py_sum (map peso (historial juan_final)) /\
  num_transacciones juan_final = Z.of_nat (List.length (historial juan_final)).
Proof.
  apply (totales_coherentes_siempre operaciones_ejemplo sistema_vacio eq_refl 1%Z).
  left. reflexivity.
Defined.

(** ** Failures of [registrar_compra] *)

(** C3.  [registrar_compra] raises "Cliente con ID ... no encontrado" when
    the id is not a key of the ledger, and "El peso debe ser mayor a 0"
    when the customer exists and the weight is at most zero; in both cases
    the state after the call (ledger, price table and data file) is the
    state before it. *)
Theorem registrar_compra_falla_sin_cambios ahora id m p pr st :
  (Dict.get Z.eqb (clientes st) id = None ->
   registrar_compra ahora id m p pr st =
   (st, inl (ValueError ("Cliente con ID " ++ PyStr.str id ++ " no encontrado")))) /\
  (forall c,
      Dict.get Z.eqb (clientes st) id = Some c ->
      (p <=? 0)%float = true ->
      registrar_compra ahora id m p pr st =
      (st, inl (ValueError "El peso debe ser mayor a 0"))).
Proof.
  split.
  - apply registrar_compra_desconocido.
  - intros c. apply registrar_compra_peso.
Qed.

Lemma registrar_compra_falla_sin_cambios_witness :
  registrar_compra t0 7 "papel" 1%float None con_juan =
  (con_juan, inl (ValueError "Cliente con ID 7 no encontrado")) /\
  registrar_compra t0 1 "papel" 0%float None con_juan =
  (con_juan, inl (ValueError "El peso debe ser mayor a 0")).
Proof.
  split.
  - exact (proj1 (registrar_compra_falla_sin_cambios t0 7%Z "papel" 1%float None con_juan)
                 eq_refl).
  - exact (proj2 (registrar_compra_falla_sin_cambios t0 1%Z "papel" 0%float None con_juan)
                 (cliente_nuevo t0 "Juan Pérez" "555-1234" "Av. Central 10")
                 eq_refl eq_refl).
Defined.

(** C9.  With an id that is not in the ledger and a weight at most zero,
    the exception is the one for the unknown customer, not the one for the
    weight: the membership test comes first. *)
Theorem registrar_compra_primero_el_cliente ahora id m p pr st :
  Dict.get Z.eqb (clientes st) id = None ->
  (p <=? 0)%float = true ->
  snd (registrar_compra ahora id m p pr st) =
  inl (ValueError ("Cliente con ID " ++ PyStr.str id ++ " no encontrado")) /\
  snd (registrar_compra ahora id m p pr st) <>
  inl (ValueError "El peso debe ser mayor a 0").
Proof.
  intros H _. rewrite registrar_compra_desconocido by exact H.
  cbn [snd]. split; [ reflexivity | ].
  cbn. intros [=].
Qed.

Lemma registrar_compra_primero_el_cliente_witness :
  snd (registrar_compra t0 7 "papel" (-2)%float None con_juan) =
  inl (ValueError "Cliente con ID 7 no encontrado").
Proof.
  exact (proj1 (registrar_compra_primero_el_cliente t0 7%Z "papel" (-2)%float None
                  con_juan eq_refl eq_refl)).
Defined.

(** The prices of the table are above zero from the start, and
    [configurar_precios] keeps them so; a purchase recorded without a price
    of its own therefore has a price above zero. *)
Lemma precios_iniciales_positivos : precios_positivos precios_iniciales.
Proof.
  intros k v H. cbn in H.
  repeat (destruct H as [[= <- <-] | H]; [ reflexivity | ]).
  destruct H.
Qed.

Lemma configurar_precios_positivos entrada_material entrada_precio sistema :
  precios_positivos (precios_materiales sistema) ->
  precios_positivos
    (precios_materiales (fst (configurar_precios entrada_material entrada_precio sistema))).
Proof.
  intros Hpos. unfold configurar_precios.
  destruct (Dict.mem String.eqb (precios_materiales sistema)
              (PyStr.strip (PyStr.lower entrada_material))); [ | exact Hpos ].
  destruct entrada_precio as [nuevo_precio | ]; [ | exact Hpos ].
  destruct (0 <? nuevo_precio)%float eqn:E; [ | exact Hpos ].
  cbn [fst precios_materiales set_precios].
  intros k v Hin. apply In_set in Hin.
  destruct Hin as [-> | Hin]; [ exact E | exact (Hpos k v Hin) ].
Qed.

Lemma precio_por_defecto_positivo (ps : Precios) (material_ : string) :
  precios_positivos ps -> (0 <? precio_por_defecto ps material_)%float = true.
Proof.
  intros Hpos. unfold precio_por_defecto, Dict.get_default.
  destruct (Dict.get String.eqb ps (PyStr.lower material_)) as [v | ] eqn:E.
  - apply (get_In String.eqb String.eqb_eq) in E. exact (Hpos _ _ E).
  - reflexivity.
Qed.

(** C5.  The price given by the caller is stored as it comes: with the
    price -3.0 the call is accepted, the purchase kept in the history has
    a negative [precio_kg], and the customer's [compras_totales] falls
    below zero. *)
Theorem registrar_compra_precio_negativo :
  let r := registrar_compra t0 1 "carton" 2%float (Some (-3)%float) con_juan in
  snd r = inr (-6)%float /\
  option_map (fun c => (map precio_kg (historial c), compras_totales c))
             (Dict.get Z.eqb (clientes (fst r)) 1%Z)
  = Some ([(-3)%float], (-6)%float) /\
  ((-3) <=? 0)%float = true /\
  ((-6) <? 0)%float = true.
Proof. repeat split. Qed.

(** ** Creating a customer *)

(** C4.  For a name that is not empty once trimmed: when some customer of
    the ledger, active or not, has the telephone given, [agregar_cliente]
    returns the id of such a customer and the state is left as it was (no
    customer added, none modified); when none has it, a customer is added
    at the end of the ledger under the id [max(ids) + 1], which is 1 for
    the empty ledger, with both totals at zero, no transaction and an
    empty history. *)
Theorem agregar_cliente_duplicado_o_alta ahora n t d st :
  PyStr.strip n <> "" ->
  ((exists id c, In (id, c) (clientes st) /\ telefono c = t) ->
   exists id0 c0,
     In (id0, c0) (clientes st) /\ telefono c0 = t /\
     agregar_cliente ahora n t d st = (st, inr id0)) /\
  ((forall id c, In (id, c) (clientes st) -> telefono c <> t) ->
   exists st' id' c',
     agregar_cliente ahora n t d st = (st', inr id') /\
     clientes st' = (clientes st ++ [(id', c')])%list /\
     id' = (py_max (Dict.keys (clientes st)) 0 + 1)%Z /\
     (clientes st = [] -> id' = 1%Z) /\
     (forall k, In k (Dict.keys (clientes st)) -> (k < id')%Z) /\
     (clientes st <> [] -> In (id' - 1)%Z (Dict.keys (clientes st))) /\
     compras_totales c' = 0%float /\
     peso_total c' = 0%float /\
     num_transacciones c' = 0%Z /\
     historial c' = []).
Proof.
  intros Hn. split.
  - intros (id & c & Hin & Htel).
    destruct (buscar_telefono (clientes st) t) as [id0 | ] eqn:Eb.
    + destruct (buscar_telefono_Some _ _ _ Eb) as (c0 & Hin0 & Htel0).
      exists id0, c0. repeat split; try assumption.
      apply agregar_cliente_existente; assumption.
    + elim (proj1 (buscar_telefono_None _ _) Eb id c Hin Htel).
  - intros Hnone. apply buscar_telefono_None in Hnone.
    exists (persistido (clientes st ++
                          [((py_max (Dict.keys (clientes st)) 0 + 1)%Z,
                            cliente_nuevo ahora n t d)])%list st),
           (py_max (Dict.keys (clientes st)) 0 + 1)%Z,
           (cliente_nuevo ahora n t d).
    split; [ apply agregar_cliente_alta; assumption | ].
    split; [ reflexivity | ].
    split; [ reflexivity | ].
    split; [ intros ->; reflexivity | ].
    split.
    { intros k Hk. apply (py_max_upper _ 0%Z) in Hk. lia. }
    split.
    { intros Hne. replace (py_max (Dict.keys (clientes st)) 0 + 1 - 1)%Z
        with (py_max (Dict.keys (clientes st)) 0) by lia.
      apply py_max_In. unfold Dict.keys.
      destruct (clientes st); [ congruence | discriminate ]. }
    repeat split.
Qed.

Lemma agregar_cliente_duplicado_o_alta_witness :
  (exists id0 c0,
      In (id0, c0) (clientes con_juan_y_ana) /\ telefono c0 = "555-1234" /\
      agregar_cliente t0 "Otro" "555-1234" "" con_juan_y_ana = (con_juan_y_ana, inr id0)) /\
  (exists st' id' c',
      agregar_cliente t0 "ana ruiz" "555-9999" "Calle 2" con_juan = (st', inr id') /\
      clientes st' = (clientes con_juan ++ [(id', c')])%list /\
      id' = 2%Z).
Proof.
  split.
  - apply (proj1 (agregar_cliente_duplicado_o_alta t0 "Otro" "555-1234" "" con_juan_y_ana
                    ltac:(discriminate))).
    exists 1%Z, (cliente_nuevo t0 "Juan Pérez" "555-1234" "Av. Central 10").
    split; [ left; reflexivity | reflexivity ].
  - destruct (proj2 (agregar_cliente_duplicado_o_alta t0 "ana ruiz" "555-9999" "Calle 2"
                       con_juan ltac:(discriminate)))
      as (st' & id' & c' & H1 & H2 & H3 & _).
    + intros id c [[= <- <-] | []]. discriminate.
    + exists st', id', c'. repeat split; assumption.
Defined.

(** ** Writing the ledger and reading it back *)

Lemma is_numeral_char_not_space (c : ascii) :
  PyStr.is_numeral_char c = true -> PyStr.isspace c = false /\ Ascii.eqb c "+" = false.
Proof. destruct c as [[] [] [] [] [] [] [] []]; cbn; intros H; split; congruence. Qed.

Lemma rstrip_numeral (s : string) : PyStr.is_numeral s = true -> PyStr.rstrip s = s.
Proof.
  induction s as [ | c r IH]; cbn [PyStr.is_numeral PyStr.rstrip]; [ reflexivity | ].
  intros H. apply andb_prop in H. destruct H as [Hc Hr].
  rewrite (IH Hr). destruct (is_numeral_char_not_space c Hc) as [Hs _].
  destruct r; [ rewrite Hs | ]; reflexivity.
Qed.

Lemma strip_numeral (s : string) : PyStr.is_numeral s = true -> PyStr.strip s = s.
Proof.
  intros H. unfold PyStr.strip.
  destruct s as [ | c r]; [ reflexivity | ].
  cbn [PyStr.lstrip]. cbn [PyStr.is_numeral] in H.
  destruct (andb_prop _ _ H) as [Hc _].
  destruct (is_numeral_char_not_space c Hc) as [-> _].
  apply rstrip_numeral. exact H.
Qed.

Lemma string_of_uint_numeral (d : Decimal.uint) :
  PyStr.is_numeral (NilEmpty.string_of_uint d) = true.
Proof. induction d; cbn [NilEmpty.string_of_uint PyStr.is_numeral]; auto. Qed.

Lemma str_numeral (z : Z) : PyStr.is_numeral (PyStr.str z) = true.
Proof.
  unfold PyStr.str.
  destruct (Z.to_int z) as [d | d]; cbn [NilZero.string_of_int].
  - destruct d; try reflexivity; apply string_of_uint_numeral.
  - cbn [PyStr.is_numeral]. rewrite andb_true_iff. split; [ reflexivity | ].
    destruct d; try reflexivity; apply string_of_uint_numeral.
Qed.

Lemma to_int_not_nil (z : Z) :
  Z.to_int z <> Decimal.Pos Decimal.Nil /\ Z.to_int z <> Decimal.Neg Decimal.Nil.
Proof.
  destruct z as [ | q | q]; cbn; split; try discriminate;
    intros [= H]; exact (DecimalPos.Unsigned.to_uint_nonnil q H).
Qed.

Lemma int_str (z : Z) : PyStr.int (PyStr.str z) = Some z.
Proof.
  unfold PyStr.int. rewrite (strip_numeral _ (str_numeral z)).
  pose proof (str_numeral z) as Hnum.
  destruct (to_int_not_nil z) as [Hp Hn].
  pose proof (NilZero.isi (Z.to_int z) Hp Hn) as Hisi.
  fold (PyStr.str z) in Hisi.
  destruct (PyStr.str z) as [ | c r] eqn:E.
  - cbn in Hisi. discriminate Hisi.
  - cbn [PyStr.is_numeral] in Hnum. destruct (andb_prop _ _ Hnum) as [Hc _].
    destruct (is_numeral_char_not_space c Hc) as [_ ->].
    rewrite Hisi. cbn [option_map]. rewrite DecimalZ.of_to. reflexivity.
Qed.

Lemma claves_enteras_json_dump (cs acc : Clientes) :
  NoDup (Dict.keys acc ++ Dict.keys cs) ->
  claves_enteras (json_dump cs) acc = Some (acc ++ cs)%list.
Proof.
  revert acc. induction cs as [ | [k v] r IH]; intros acc Hnd.
  - cbn. rewrite app_nil_r. reflexivity.
  - cbn [json_dump map claves_enteras fst snd]. rewrite int_str.
    assert (Hk : Dict.get Z.eqb acc k = None).
    { apply (get_None_not_key Z.eqb Z.eqb_eq). intros Hin.
      cbn in Hnd. apply NoDup_remove_2 in Hnd. apply Hnd.
      apply in_or_app. left. exact Hin. }
    rewrite (set_absent Z.eqb _ _ _ Hk).
    change (json_dump r) with (map (fun kv => (PyStr.str (fst kv), snd kv)) r) in IH.
    rewrite IH.
    + rewrite <- app_assoc. reflexivity.
    + unfold Dict.keys in *. rewrite map_app, <- app_assoc. exact Hnd.
Qed.

Lemma cargar_tras_guardar (st : Estado) (cs0 : Clientes) :
  NoDup (Dict.keys (clientes st)) ->
  cargar_datos (set_clientes cs0 (fst (guardar_datos st))) =
  (fst (guardar_datos st), inr tt).
Proof.
  intros Hnd. unfold cargar_datos, guardar_datos. cbn [fst].
  cbn [archivo_datos disco set_clientes set_disco].
  rewrite (get_set_same String.eqb String.eqb_eq).
  rewrite claves_enteras_json_dump by exact Hnd.
  reflexivity.
Qed.

(** C6.  A ledger written by [guardar_datos] and read by [cargar_datos],
    in the same process or when the system next starts on that disk, is
    the ledger that was written: the same integer ids in the same order,
    each with the same customer (every field and the history in its
    order).  The keys of a dictionary are distinct. *)
Theorem guardar_y_cargar (st : Estado) :
  NoDup (Dict.keys (clientes st)) ->
  let guardado := fst (guardar_datos st) in
  clientes (fst (cargar_datos guardado)) = clientes st /\
  clientes (init (archivo_datos st) (disco guardado)) = clientes st.
Proof.
  intros Hnd guardado. split.
  - change guardado with (set_clientes (clientes st) guardado).
    unfold guardado. rewrite (cargar_tras_guardar st (clientes st) Hnd).
    reflexivity.
  - unfold init.
    change {| archivo_datos := archivo_datos st;
              clientes := [];
              precios_materiales := precios_iniciales;
              disco := disco guardado |}
      with (set_precios precios_iniciales (set_clientes [] guardado)).
    unfold cargar_datos, guardado, guardar_datos. cbn [fst].
    cbn [archivo_datos disco set_clientes set_disco set_precios].
    rewrite (get_set_same String.eqb String.eqb_eq).
    rewrite claves_enteras_json_dump by exact Hnd.
    reflexivity.
Qed.

Lemma guardar_y_cargar_witness :
  clientes (fst (cargar_datos (fst (guardar_datos con_juan_y_ana)))) =
  clientes con_juan_y_ana /\
  clientes (init "clientes.json" (disco (fst (guardar_datos con_juan_y_ana)))) =
  clientes con_juan_y_ana.
Proof.
  apply (guardar_y_cargar con_juan_y_ana).
  repeat constructor; cbn; intuition discriminate.
Defined.

(** ** Exporting *)

(** C8.  For a format that is neither "json" nor "csv" once lower-cased,
    [exportar_datos] writes no file (the disk and the rest of the state are
    as before) and returns no file name: reading the variable [archivo],
    which no branch has bound, raises. *)
Theorem exportar_datos_formato_desconocido ahora formato st :
  PyStr.lower formato <> "json" ->
  PyStr.lower formato <> "csv" ->
  exportar_datos ahora formato st = (st, inl (UnboundLocalError "archivo")).
Proof.
  intros Hj Hc. unfold exportar_datos.
  apply String.eqb_neq in Hj. apply String.eqb_neq in Hc.
  rewrite Hj, Hc. reflexivity.
Qed.

Lemma exportar_datos_formato_desconocido_witness :
  exportar_datos t0 "XML" con_juan = (con_juan, inl (UnboundLocalError "archivo")).
Proof.
  apply (exportar_datos_formato_desconocido t0 "XML" con_juan); discriminate.
Defined.

(** ** The telephone of a new customer *)

Lemma agregar_cliente_con_alta T ahora n t d st :
  m_strip T n <> "" ->
  buscar_telefono (clientes st) t = None ->
  let id := (py_max (Dict.keys (clientes st)) 0 + 1)%Z in
  agregar_cliente_con T ahora n t d st =
  (persistido (clientes st ++ [(id, cliente_nuevo_con T ahora n t d)])%list st, inr id).
Proof.
  intros Hn Hb id. unfold agregar_cliente_con.
  apply String.eqb_neq in Hn. rewrite Hn.
  unfold bind, gets. rewrite Hb. cbn.
  rewrite (set_absent Z.eqb) by apply py_max_succ_fresh.
  reflexivity.
Qed.

Lemma repetido_al_final {A : Type} (l : list A) (a : A) :
  In a l -> ~ NoDup (l ++ [a])%list.
Proof.
  intros Hin Hnd. apply NoDup_remove_2 in Hnd. apply Hnd.
  rewrite app_nil_r. exact Hin.
Qed.

(** C10.  The telephone of a new customer is stored trimmed, but the search
    for a customer with the same telephone compares the argument as it was
    passed.  So, whatever [str.strip] is ([T]): in a ledger whose
    telephones are all trimmed, a call whose telephone is not trimmed and
    is, once trimmed, the telephone of a customer [c0] finds no match; the
    ledger after it is the ledger before it followed by one new customer,
    under an id that was not in the ledger, whose telephone is that of
    [c0]; and the telephones of the ledger are no longer all different.
    Such a call exists: on the ledger that holds Juan Pérez alone, with
    "555-1234", a call with " 555-1234 " creates customer 2 with
    "555-1234". *)
Theorem agregar_cliente_telefono_sin_recortar :
  (forall T ahora n t d st id0 c0,
      m_strip T n <> "" ->
      (forall id c, In (id, c) (clientes st) -> m_strip T (telefono c) = telefono c) ->
      In (id0, c0) (clientes st) ->
      m_strip T t <> t ->
      m_strip T t = telefono c0 ->
      buscar_telefono (clientes st) t = None /\
      exists id' c',
        agregar_cliente_con T ahora n t d st =
        (persistido (clientes st ++ [(id', c')])%list st, inr id') /\
        ~ In id' (Dict.keys (clientes st)) /\
        id' <> id0 /\
        telefono c' = telefono c0 /\
        ~ telefonos_distintos (clientes st ++ [(id', c')])%list) /\
  (telefonos_distintos (clientes con_juan) /\
   clientes con_juan = [(1%Z, cliente_nuevo t0 "Juan Pérez" "555-1234" "Av. Central 10")] /\
   agregar_cliente t0 "juan perez" " 555-1234 " "Av. Central 10" con_juan =
   (persistido [(1%Z, cliente_nuevo t0 "Juan Pérez" "555-1234" "Av. Central 10");
                (2%Z, cliente_nuevo t0 "juan perez" " 555-1234 " "Av. Central 10")]
               con_juan,
    inr 2%Z) /\
   telefono (cliente_nuevo t0 "juan perez" " 555-1234 " "Av. Central 10") = "555-1234" /\
   ~ telefonos_distintos
       [(1%Z, cliente_nuevo t0 "Juan Pérez" "555-1234" "Av. Central 10");
        (2%Z, cliente_nuevo t0 "juan perez" " 555-1234 " "Av. Central 10")]).
Proof.
  split.
  - intros T ahora n t d st id0 c0 Hn Htrim Hin Ht Hc0.
    assert (Hb : buscar_telefono (clientes st) t = None).
    { apply buscar_telefono_None. intros id c Hc E.
      apply Ht. rewrite <- E. apply (Htrim id c Hc). }
    split; [ exact Hb | ].
    exists (py_max (Dict.keys (clientes st)) 0 + 1)%Z, (cliente_nuevo_con T ahora n t d).
    assert (Hfresh : ~ In (py_max (Dict.keys (clientes st)) 0 + 1)%Z
                          (Dict.keys (clientes st))).
    { apply (get_None_not_key Z.eqb Z.eqb_eq). apply py_max_succ_fresh. }
    split; [ apply agregar_cliente_con_alta; assumption | ].
    split; [ exact Hfresh | ].
    split.
    { intros E. apply Hfresh. rewrite E. unfold Dict.keys.
      apply in_map_iff. exists (id0, c0). split; [ reflexivity | exact Hin ]. }
    split; [ exact Hc0 | ].
    unfold telefonos_distintos. rewrite map_app. cbn [map snd cliente_nuevo_con telefono].
    apply repetido_al_final. rewrite Hc0.
    apply in_map_iff. exists (id0, c0). split; [ reflexivity | exact Hin ].
  - split.
    { repeat constructor. intros []. }
    split; [ reflexivity | ].
    split; [ reflexivity | ].
    split; [ reflexivity | ].
    intros H. inversion H as [ | ? ? Hnot _]. apply Hnot. left. reflexivity.
Qed.

Lemma agregar_cliente_telefono_sin_recortar_witness :
  exists id' c',
    agregar_cliente t0 "juan perez" " 555-1234 " "Av. Central 10" con_juan =
    (persistido (clientes con_juan ++ [(id', c')])%list con_juan, inr id') /\
    ~ In id' (Dict.keys (clientes con_juan)) /\
    id' <> 1%Z /\
    telefono c' = "555-1234" /\
    ~ telefonos_distintos (clientes con_juan ++ [(id', c')])%list.
Proof.
  refine (proj2 (proj1 agregar_cliente_telefono_sin_recortar metodos_ascii t0
                   "juan perez" " 555-1234 " "Av. Central 10" con_juan 1%Z
                   (cliente_nuevo t0 "Juan Pérez" "555-1234" "Av. Central 10")
                   _ _ _ _ eq_refl)).
  - discriminate.
  - intros id c [[= <- <-] | []]. reflexivity.
  - left. reflexivity.
  - discriminate.
Defined.

(** ** The price table *)

(** C7, as the code has it.  [configurar_precios] changes the price of a
    material of the table only.  Whatever [str.lower] and [str.strip] are
    ([T]), for the material typed, lower-cased and trimmed: when the table
    has no entry for it, the operator is told so and nothing changes,
    whatever the price (nothing is inserted); when it has one and the price
    is at most zero, the price is refused and nothing changes; when it has
    one and the price is above zero, that entry is overwritten, the other
    prices, the materials of the table and the rest of the state are as
    before, and the table then gives the new price for every material
    whose lower case is that key. *)
Theorem configurar_precios_con_solo_existentes T entrada_material p sistema :
  let m := m_strip T (m_lower T entrada_material) in
  let r := configurar_precios_con T entrada_material (Some p) sistema in
  (Dict.get String.eqb (precios_materiales sistema) m = None ->
   r = (sistema, MaterialNoEncontrado)) /\
  (Dict.get String.eqb (precios_materiales sistema) m <> None ->
   (p <=? 0)%float = true ->
   r = (sistema, PrecioNoPositivo)) /\
  (Dict.get String.eqb (precios_materiales sistema) m <> None ->
   (0 <? p)%float = true ->
   snd r = PrecioActualizado /\
   clientes (fst r) = clientes sistema /\
   disco (fst r) = disco sistema /\
   Dict.keys (precios_materiales (fst r)) = Dict.keys (precios_materiales sistema) /\
   Dict.get String.eqb (precios_materiales (fst r)) m = Some p /\
   (forall k, k <> m ->
              Dict.get String.eqb (precios_materiales (fst r)) k
              = Dict.get String.eqb (precios_materiales sistema) k) /\
   (forall material_,
       m_lower T material_ = m ->
       Dict.get_default String.eqb (precios_materiales (fst r))
                        (m_lower T material_) 5.0%float = p)).
Proof.
  intros m r. subst r. unfold configurar_precios_con, Dict.mem. fold m.
  destruct (Dict.get String.eqb (precios_materiales sistema) m) as [v | ] eqn:Eg.
  - split; [ discriminate | ].
    split.
    + intros _ Hp. rewrite (leb_zero_not_ltb p Hp). reflexivity.
    + intros _ Hp. rewrite Hp. cbn [fst snd precios_materiales set_precios].
      split; [ reflexivity | ]. split; [ reflexivity | ]. split; [ reflexivity | ].
      split; [ exact (keys_set_present String.eqb _ _ _ _ Eg) | ].
      split; [ apply (get_set_same String.eqb String.eqb_eq) | ].
      split.
      * intros k Hk. apply (get_set_other String.eqb String.eqb_eq). exact Hk.
      * intros material_ ->. unfold Dict.get_default.
        rewrite (get_set_same String.eqb String.eqb_eq). reflexivity.
  - split; [ reflexivity | ].
    split; intros H; elim H; reflexivity.
Qed.

Lemma configurar_precios_con_solo_existentes_witness :
  configurar_precios "zinc" (Some 4.0%float) sistema_vacio
  = (sistema_vacio, MaterialNoEncontrado) /\
  configurar_precios " Cobre " (Some (-1)%float) sistema_vacio
  = (sistema_vacio, PrecioNoPositivo) /\
  snd (configurar_precios " Cobre " (Some 90.0%float) sistema_vacio) = PrecioActualizado /\
  Dict.get_default String.eqb
    (precios_materiales (fst (configurar_precios " Cobre " (Some 90.0%float) sistema_vacio)))
    (PyStr.lower "COBRE") 5.0%float = 90.0%float /\
  Dict.get String.eqb
    (precios_materiales (fst (configurar_precios " Cobre " (Some 90.0%float) sistema_vacio)))
    "metal"
  = Some 15.0%float.
Proof.
  split; [ | split ].
  - exact (proj1 (configurar_precios_con_solo_existentes metodos_ascii "zinc" 4.0%float
                    sistema_vacio) eq_refl).
  - apply (proj1 (proj2 (configurar_precios_con_solo_existentes metodos_ascii " Cobre "
                           (-1)%float sistema_vacio)));
      [ discriminate | reflexivity ].
  - destruct (proj2 (proj2 (configurar_precios_con_solo_existentes metodos_ascii " Cobre "
                              90.0%float sistema_vacio)))
      as (H1 & _ & _ & _ & _ & H2 & H3); [ discriminate | reflexivity | ].
    split; [ exact H1 | ]. split.
    + apply (H3 "COBRE"). reflexivity.
    + transitivity (Dict.get String.eqb (precios_materiales sistema_vacio) "metal");
        [ exact (H2 "metal" ltac:(discriminate)) | reflexivity ].
Defined.

(** C7, as the specification words it, fails where the material is not in
    the table: with the price 4.0 for "zinc" nothing is inserted and the
    table still gives the default 5.0 for it; and with a price at most
    zero the answer for "zinc" is that the material is unknown, not that
    the price is refused. *)
Lemma configurar_precios_no_inserta :
  (4.0 <=? 0)%float = false /\
  configurar_precios "zinc" (Some 4.0%float) sistema_vacio
  = (sistema_vacio, MaterialNoEncontrado) /\
  Dict.get_default String.eqb
    (precios_materiales (fst (configurar_precios "zinc" (Some 4.0%float) sistema_vacio)))
    (PyStr.lower "zinc") 5.0%float = 5.0%float /\
  (5.0 =? 4.0)%float = false /\
  ((-1) <=? 0)%float = true /\
  configurar_precios "zinc" (Some (-1)%float) sistema_vacio
  = (sistema_vacio, MaterialNoEncontrado).
Proof. repeat split. Qed.

(** * Further properties of the code *)

(** ** The outcomes of the two operations *)

Lemma agregar_cliente_casos ahora n t d st :
  (exists r, agregar_cliente ahora n t d st = (st, r)) \/
  (PyStr.strip n <> "" /\
   buscar_telefono (clientes st) t = None /\
   agregar_cliente ahora n t d st =
   (persistido (clientes st ++
                  [((py_max (Dict.keys (clientes st)) 0 + 1)%Z,
                    cliente_nuevo ahora n t d)])%list st,
    inr (py_max (Dict.keys (clientes st)) 0 + 1)%Z)).
Proof.
  destruct (String.eqb (PyStr.strip n) "") eqn:En.
  - apply String.eqb_eq in En. left. eexists.
    apply agregar_cliente_vacio. exact En.
  - apply String.eqb_neq in En.
    destruct (buscar_telefono (clientes st) t) as [id | ] eqn:Eb.
    + left. eexists. apply agregar_cliente_existente; eassumption.
    + right. split; [ exact En | ]. split; [ reflexivity | ].
      apply agregar_cliente_alta; assumption.
Qed.

Lemma registrar_compra_casos ahora id m p pr st :
  (exists e, registrar_compra ahora id m p pr st = (st, inl e)) \/
  (exists c,
      Dict.get Z.eqb (clientes st) id = Some c /\
      (p <=? 0)%float = false /\
      registrar_compra ahora id m p pr st =
      (persistido (Dict.set Z.eqb (clientes st) id
                     (anotar_compra c
                        (compra_de ahora m p
                           (precio_resuelto (precios_materiales st) m pr)))) st,
       inr (p * precio_resuelto (precios_materiales st) m pr)%float)).
Proof.
  destruct (Dict.get Z.eqb (clientes st) id) as [c | ] eqn:Eg.
  - destruct (p <=? 0)%float eqn:Ep.
    + left. eexists. apply (registrar_compra_peso _ _ _ _ _ _ c); assumption.
    + right. exists c. split; [ reflexivity | ]. split; [ reflexivity | ].
      apply registrar_compra_hecha; assumption.
  - left. eexists. apply registrar_compra_desconocido. exact Eg.
Qed.

Lemma get_app {K V : Type} (eqb : K -> K -> bool) (d d' : Dict.t (K := K) (V := V)) (k : K) :
  Dict.get eqb (d ++ d')%list k =
  match Dict.get eqb d k with
  | Some v => Some v
  | None => Dict.get eqb d' k
  end.
Proof.
  induction d as [ | [k' v'] r IH]; cbn; [ reflexivity | ].
  destruct (eqb k' k); [ reflexivity | exact IH ].
Qed.

Lemma buscar_telefono_app (cs cs' : Clientes) (tel : string) :
  buscar_telefono (cs ++ cs')%list tel =
  match buscar_telefono cs tel with
  | Some id => Some id
  | None => buscar_telefono cs' tel
  end.
Proof.
  induction cs as [ | [k c] r IH]; cbn; [ reflexivity | ].
  destruct (String.eqb (telefono c) tel); [ reflexivity | exact IH ].
Qed.

(** ** Trimming twice *)

Lemma rstrip_idem (s : string) : PyStr.rstrip (PyStr.rstrip s) = PyStr.rstrip s.
Proof.
  induction s as [ | c r IH]; [ reflexivity | ].
  cbn [PyStr.rstrip].
  destruct (PyStr.rstrip r) as [ | c' r'] eqn:E.
  - destruct (PyStr.isspace c) eqn:Ec; [ reflexivity | ].
    cbn [PyStr.rstrip]. rewrite Ec. reflexivity.
  - cbn [PyStr.rstrip] in IH |- *. cbn [PyStr.rstrip]. 
    destruct (PyStr.rstrip r') as [ | c'' r''] eqn:E'.
    + destruct (PyStr.isspace c'); [ discriminate IH | ].
      rewrite <- E' in IH. injection IH as IH. rewrite E' in IH.
      rewrite <- IH. reflexivity.
    + injection IH as IH. rewrite IH. reflexivity.
Qed.

Lemma lstrip_rstrip_head (c : ascii) (r : string) :
  PyStr.isspace c = false ->
  PyStr.lstrip (PyStr.rstrip (String c r)) = PyStr.rstrip (String c r).
Proof.
  intros Hc. cbn [PyStr.rstrip].
  destruct (PyStr.rstrip r); [ rewrite Hc | ]; cbn [PyStr.lstrip]; rewrite Hc; reflexivity.
Qed.

Lemma lstrip_head (s : string) :
  PyStr.lstrip s = "" \/
  exists c r, PyStr.lstrip s = String c r /\ PyStr.isspace c = false.
Proof.
  induction s as [ | c r IH]; cbn [PyStr.lstrip]; [ left; reflexivity | ].
  destruct (PyStr.isspace c) eqn:Ec; [ exact IH | ].
  right. exists c, r. split; [ reflexivity | exact Ec ].
Qed.

Lemma strip_idem (s : string) : PyStr.strip (PyStr.strip s) = PyStr.strip s.
Proof.
  unfold PyStr.strip.
  destruct (lstrip_head s) as [E | (c & r & E & Hc)]; rewrite E.
  - reflexivity.
  - rewrite (lstrip_rstrip_head c r Hc). apply rstrip_idem.
Qed.

(** ** [agregar_cliente]: what it keeps *)

(** X1.  A name that is empty once trimmed is refused with "El nombre no
    puede estar vacío", and nothing changes: no customer is added and the
    data file is not written. *)
Theorem agregar_cliente_nombre_vacio ahora n t d st :
  PyStr.strip n = "" ->
  agregar_cliente ahora n t d st =
  (st, inl (ValueError "El nombre no puede estar vacío")).
Proof. apply agregar_cliente_vacio. Qed.

Lemma agregar_cliente_nombre_vacio_witness :
  agregar_cliente t0 "   " "555-0000" "Calle 1" con_juan =
  (con_juan, inl (ValueError "El nombre no puede estar vacío")).
Proof.
  apply (agregar_cliente_nombre_vacio t0 "   " "555-0000" "Calle 1" con_juan).
  reflexivity.
Defined.

(** X2.  Whatever its arguments and its outcome, [agregar_cliente] leaves
    the customers of the ledger where and as they were: the ledger after
    the call is the ledger before it, followed by at most one customer;
    and the price table is not touched. *)
Theorem agregar_cliente_conserva ahora n t d st :
  exists nuevos,
    clientes (fst (agregar_cliente ahora n t d st)) = (clientes st ++ nuevos)%list /\
    (List.length nuevos <= 1)%nat /\
    precios_materiales (fst (agregar_cliente ahora n t d st)) = precios_materiales st.
Proof.
  destruct (agregar_cliente_casos ahora n t d st) as [[r E] | (_ & _ & E)]; rewrite E.
  - exists []. cbn [fst]. rewrite app_nil_r. repeat split. cbn. lia.
  - eexists. cbn [fst]. rewrite clientes_persistido. repeat split. cbn. lia.
Qed.

(** X3.  Asking twice is asking once: after a call with a telephone that
    has no blanks around it, a second call with that telephone, under any
    name that is not empty, returns the id the first call returned and
    changes nothing. *)
Theorem agregar_cliente_dos_veces ahora n t d ahora2 n2 d2 st :
  PyStr.strip n <> "" ->
  PyStr.strip n2 <> "" ->
  PyStr.strip t = t ->
  let r1 := agregar_cliente ahora n t d st in
  agregar_cliente ahora2 n2 t d2 (fst r1) = (fst r1, snd r1) /\
  exists id, snd r1 = inr id.
Proof.
  intros Hn Hn2 Ht r1. subst r1.
  destruct (buscar_telefono (clientes st) t) as [id | ] eqn:Eb.
  - rewrite (agregar_cliente_existente ahora n t d st id Hn Eb). cbn [fst snd].
    split; [ | exists id; reflexivity ].
    apply agregar_cliente_existente; assumption.
  - rewrite (agregar_cliente_alta ahora n t d st Hn Eb). cbn [fst snd].
    split; [ | eexists; reflexivity ].
    apply agregar_cliente_existente; [ exact Hn2 | ].
    rewrite clientes_persistido, buscar_telefono_app, Eb.
    cbn [buscar_telefono cliente_nuevo telefono]. rewrite Ht, String.eqb_refl.
    reflexivity.
Qed.

Lemma agregar_cliente_dos_veces_witness :
  agregar_cliente t0 "Ana" "555-9999" "" con_juan_y_ana = (con_juan_y_ana, inr 2%Z).
Proof.
  exact (proj1 (agregar_cliente_dos_veces t0 "ana ruiz" "555-9999" "Calle 2" t0 "Ana" ""
                  con_juan ltac:(discriminate) ltac:(discriminate) eq_refl)).
Defined.

(** X4.  Through option 1 of the menu, which trims the telephone before
    the call, no two customers ever get the same telephone: a ledger whose
    telephones are all different keeps them different, however many times
    and with whatever lines the option is used. *)
Theorem opcion_1_telefonos_distintos entradas st :
  telefonos_distintos (clientes st) ->
  telefonos_distintos (clientes (opcion_1_todas entradas st)).
Proof.
  unfold opcion_1_todas. revert st.
  induction entradas as [ | [ahora [[ln lt] ld]] r IH]; intros st H; cbn [fold_left].
  - exact H.
  - apply IH. cbn [fst snd]. unfold opcion_1.
    destruct (String.eqb (PyStr.strip ln) ""); [ exact H | ].
    destruct (agregar_cliente_casos ahora (PyStr.strip ln) (PyStr.strip lt)
                (PyStr.strip ld) st) as [[res E] | (_ & Eb & E)]; rewrite E; cbn [fst].
    + exact H.
    + rewrite clientes_persistido. unfold telefonos_distintos in *.
      rewrite map_app. cbn [map snd cliente_nuevo telefono].
      apply NoDup_snoc; [ exact H | ].
      rewrite strip_idem. intros Hin. apply in_map_iff in Hin.
      destruct Hin as ([k c] & Hc & Hin). cbn [snd] in Hc.
      exact (proj1 (buscar_telefono_None _ _) Eb k c Hin Hc).
Qed.

Lemma opcion_1_telefonos_distintos_witness :
  telefonos_distintos
    (clientes (opcion_1_todas
                 [ (t0, ("ana ruiz", " 555-1234 ", "Calle 2"));
                   (t0, ("  ", "555-7777", ""));
                   (t0, ("luis", "555-7777", "Calle 3")) ] con_juan)).
Proof.
  apply (opcion_1_telefonos_distintos _ con_juan).
  repeat constructor; cbn; intuition discriminate.
Defined.

(** ** [registrar_compra]: what it leaves alone *)

(** X5.  A call for one customer, whether it returns or raises, changes no
    other customer, adds and removes no id, and leaves the price table as
    it was. *)
Theorem registrar_compra_otros_intactos ahora id m p pr st otro :
  otro <> id ->
  let st' := fst (registrar_compra ahora id m p pr st) in
  Dict.get Z.eqb (clientes st') otro = Dict.get Z.eqb (clientes st) otro /\
  Dict.keys (clientes st') = Dict.keys (clientes st) /\
  precios_materiales st' = precios_materiales st.
Proof.
  intros Hne st'. subst st'.
  destruct (registrar_compra_casos ahora id m p pr st) as [[e E] | (c & Hc & _ & E)];
    rewrite E; cbn [fst].
  - repeat split.
  - rewrite clientes_persistido, precios_persistido.
    split; [ apply (get_set_other Z.eqb Z.eqb_eq); exact Hne | ].
    split; [ exact (keys_set_present Z.eqb _ _ _ _ Hc) | reflexivity ].
Qed.

Lemma registrar_compra_otros_intactos_witness :
  Dict.get Z.eqb
    (clientes (fst (registrar_compra t0 2 "papel" 4%float None con_juan_y_ana))) 1%Z
  = Dict.get Z.eqb (clientes con_juan_y_ana) 1%Z.
Proof.
  exact (proj1 (registrar_compra_otros_intactos t0 2%Z "papel" 4%float None
                  con_juan_y_ana 1%Z ltac:(discriminate))).
Defined.

(** ** Over a sequence of operations *)

Lemma continua_refl (c : Cliente) : continua c c.
Proof. split; [ exists []; rewrite app_nil_r; reflexivity | repeat split ]. Qed.

Lemma continua_trans (a b c : Cliente) : continua a b -> continua b c -> continua a c.
Proof.
  intros ([n1 H1] & Ha1 & Ha2 & Ha3 & Ha4 & Ha5) ([n2 H2] & Hb1 & Hb2 & Hb3 & Hb4 & Hb5).
  split.
  - exists (n1 ++ n2)%list. rewrite H2, H1, app_assoc. reflexivity.
  - repeat split; congruence.
Qed.

Lemma ejecutar_continua (op : Operacion) (st : Estado) (id : Z) (c : Cliente) :
  Dict.get Z.eqb (clientes st) id = Some c ->
  exists c', Dict.get Z.eqb (clientes (ejecutar op st)) id = Some c' /\ continua c c'.
Proof.
  intros Hc. destruct op as [ahora n t d | ahora id0 m p pr]; cbn [ejecutar].
  - destruct (agregar_cliente_casos ahora n t d st) as [[r E] | (_ & _ & E)];
      rewrite E; cbn [fst].
    + exists c. split; [ exact Hc | apply continua_refl ].
    + exists c. rewrite clientes_persistido, get_app, Hc.
      split; [ reflexivity | apply continua_refl ].
  - destruct (registrar_compra_casos ahora id0 m p pr st) as [[e E] | (c0 & Hc0 & _ & E)];
      rewrite E; cbn [fst].
    + exists c. split; [ exact Hc | apply continua_refl ].
    + rewrite clientes_persistido. destruct (Z.eq_dec id id0) as [-> | Hne].
      * rewrite (get_set_same Z.eqb Z.eqb_eq). eexists. split; [ reflexivity | ].
        assert (c0 = c) by congruence. subst c0.
        split; [ eexists; apply historial_anotar | repeat split ].
      * rewrite (get_set_other Z.eqb Z.eqb_eq) by exact Hne.
        exists c. split; [ exact Hc | apply continua_refl ].
Qed.

(** X6.  Purchases are only ever added at the end of a history, and a
    customer, once in the ledger, stays: after any sequence of
    [agregar_cliente] and [registrar_compra] calls, a customer that was in
    the ledger is still there under its id, its history is the old one
    followed by the new purchases, and its name, telephone, address, date
    of registration and active flag are what they were. *)
Theorem historial_solo_crece (ops : list Operacion) (st : Estado) (id : Z) (c : Cliente) :
  Dict.get Z.eqb (clientes st) id = Some c ->
  exists c',
    Dict.get Z.eqb (clientes (ejecutar_todas ops st)) id = Some c' /\
    (exists nuevas, historial c' = (historial c ++ nuevas)%list) /\
    nombre c' = nombre c /\
    telefono c' = telefono c /\
    direccion c' = direccion c /\
    fecha_registro c' = fecha_registro c /\
    activo c' = activo c.
Proof.
  revert st c. induction ops as [ | op ops IH]; intros st c Hc; cbn [ejecutar_todas fold_left].
  - exists c. split; [ exact Hc | apply continua_refl ].
  - destruct (ejecutar_continua op st id c Hc) as (c1 & Hc1 & H1).
    destruct (IH _ _ Hc1) as (c2 & Hc2 & H2).
    exists c2. split; [ exact Hc2 | ].
    exact (continua_trans _ _ _ H1 H2).
Qed.

Lemma historial_solo_crece_witness :
  exists c',
    Dict.get Z.eqb (clientes (ejecutar_todas operaciones_ejemplo con_juan)) 1%Z = Some c' /\
    nombre c' = "Juan Pérez" /\ activo c' = true.
Proof.
  destruct (historial_solo_crece operaciones_ejemplo con_juan 1%Z
              (cliente_nuevo t0 "Juan Pérez" "555-1234" "Av. Central 10") eq_refl)
    as (c' & H1 & _ & H2 & _ & _ & _ & H3).
  exists c'. repeat split; assumption.
Defined.

(** X7.  No operation of the ledger makes a customer inactive, and a new
    customer is active: if every customer is active, every customer is
    active after any sequence of [agregar_cliente] and [registrar_compra]
    calls.  An inactive customer can only come from the data file. *)
Theorem siempre_activos (ops : list Operacion) (st : Estado) :
  (forall id c, In (id, c) (clientes st) -> activo c = true) ->
  forall id c, In (id, c) (clientes (ejecutar_todas ops st)) -> activo c = true.
Proof.
  revert st. induction ops as [ | op ops IH]; intros st H; cbn [ejecutar_todas fold_left].
  - exact H.
  - apply IH. clear IH. destruct op as [ahora n t d | ahora id0 m p pr]; cbn [ejecutar].
    + destruct (agregar_cliente_casos ahora n t d st) as [[r E] | (_ & _ & E)];
        rewrite E; cbn [fst]; [ exact H | ].
      rewrite clientes_persistido. intros id c Hin. apply in_app_or in Hin.
      destruct Hin as [Hin | [[= _ <-] | []]]; [ eauto | reflexivity ].
    + destruct (registrar_compra_casos ahora id0 m p pr st) as [[e E] | (c0 & Hc0 & _ & E)];
        rewrite E; cbn [fst]; [ exact H | ].
      rewrite clientes_persistido. intros id c Hin. apply In_set in Hin.
      destruct Hin as [-> | Hin]; [ | eauto ].
      apply (get_In Z.eqb Z.eqb_eq) in Hc0. exact (H _ _ Hc0).
Qed.

Lemma siempre_activos_witness : activo juan_final = true.
Proof.
  apply (siempre_activos operaciones_ejemplo sistema_vacio (fun id c (H : In (id, c) []) =>
           match H with end) 1%Z).
  left. reflexivity.
Defined.

(** ** A weight that is not a number *)

Lemma Prim2SF_inj (x y : float) : Prim2SF x = Prim2SF y -> x = y.
Proof.
  intros H. rewrite <- (SF2Prim_Prim2SF x), <- (SF2Prim_Prim2SF y), H. reflexivity.
Qed.

Lemma add_nan (x : float) : (x + nan)%float = nan.
Proof.
  apply Prim2SF_inj. rewrite add_spec.
  change (Prim2SF nan) with S754_nan.
  destruct (Prim2SF x) as [s | s | | s m e]; reflexivity.
Qed.

Lemma nan_mul (x : float) : (nan * x)%float = nan.
Proof.
  apply Prim2SF_inj. rewrite mul_spec.
  change (Prim2SF nan) with S754_nan. reflexivity.
Qed.

(** X8.  The test [peso <= 0] does not stop a weight that is not a number:
    for a customer of the ledger, [registrar_compra] with the weight NaN
    (what [float] reads from "nan") returns instead of raising, and the
    customer's [peso_total] and [compras_totales] are NaN from then on,
    whatever they were and whatever the price. *)
Theorem registrar_compra_peso_nan ahora id m pr st c :
  Dict.get Z.eqb (clientes st) id = Some c ->
  let r := registrar_compra ahora id m nan pr st in
  snd r = inr nan /\
  exists c',
    Dict.get Z.eqb (clientes (fst r)) id = Some c' /\
    peso_total c' = nan /\
    compras_totales c' = nan /\
    (peso_total c' =? peso_total c')%float = false.
Proof.
  intros Hc r. subst r.
  rewrite (registrar_compra_hecha ahora id m nan pr st c Hc eq_refl).
  cbn [fst snd]. rewrite nan_mul. split; [ reflexivity | ].
  eexists. rewrite clientes_persistido.
  split; [ apply (get_set_same Z.eqb Z.eqb_eq) | ].
  rewrite peso_total_anotar, compras_totales_anotar.
  cbn [compra_de peso total]. rewrite nan_mul, !add_nan. repeat split.
Qed.

Lemma registrar_compra_peso_nan_witness :
  snd (registrar_compra t0 1 "carton" nan None con_juan) = inr nan.
Proof.
  exact (proj1 (registrar_compra_peso_nan t0 1%Z "carton" None con_juan
                  (cliente_nuevo t0 "Juan Pérez" "555-1234" "Av. Central 10") eq_refl)).
Defined.

(** ** What a restart finds *)

Lemma claves_enteras_distintas (data : Documento) (acc cs : Clientes) :
  NoDup (Dict.keys acc) ->
  claves_enteras data acc = Some cs ->
  NoDup (Dict.keys cs).
Proof.
  revert acc. induction data as [ | [k v] r IH]; intros acc Hacc; cbn [claves_enteras].
  - intros [= <-]. exact Hacc.
  - destruct (PyStr.int k) as [id | ]; [ | discriminate ].
    apply IH. apply set_claves_distintas. exact Hacc.
Qed.

Lemma init_claves_distintas (archivo : string) (d : Disco) :
  NoDup (Dict.keys (clientes (init archivo d))).
Proof.
  unfold init, cargar_datos. cbn [archivo_datos disco].
  destruct (Dict.get String.eqb d archivo) as [[data | cab filas] | ]; cbn;
    try constructor.
  destruct (claves_enteras data []) as [cs | ] eqn:E; cbn; [ | constructor ].
  apply (claves_enteras_distintas data [] cs); [ constructor | exact E ].
Qed.

Lemma init_persistido (cs : Clientes) (st : Estado) :
  NoDup (Dict.keys cs) ->
  clientes (init (archivo_datos st) (disco (persistido cs st))) = cs.
Proof.
  intros Hnd. unfold init, cargar_datos, persistido, guardar_datos.
  cbn [fst archivo_datos disco clientes set_clientes set_disco].
  rewrite (get_set_same String.eqb String.eqb_eq).
  rewrite claves_enteras_json_dump by exact Hnd.
  reflexivity.
Qed.

Lemma init_datos (archivo : string) (d : Disco) :
  archivo_datos (init archivo d) = archivo /\ disco (init archivo d) = d /\
  precios_materiales (init archivo d) = precios_iniciales.
Proof.
  unfold init, cargar_datos. cbn [archivo_datos disco].
  destruct (Dict.get String.eqb d archivo) as [[data | cab filas] | ]; cbn;
    try (repeat split; fail).
  destruct (claves_enteras data []); repeat split.
Qed.

Lemma ejecutar_en_disco (op : Operacion) (st : Estado) :
  en_disco st ->
  en_disco (ejecutar op st) /\ archivo_datos (ejecutar op st) = archivo_datos st.
Proof.
  intros [Hnd Hd].
  pose proof (ejecutar_claves_distintas op st Hnd) as Hnd'.
  destruct op as [ahora n t d | ahora id m p pr]; cbn [ejecutar] in *.
  - destruct (agregar_cliente_casos ahora n t d st) as [[r E] | (_ & _ & E)];
      rewrite E in *; cbn [fst] in *.
    + split; [ split; assumption | reflexivity ].
    + split; [ split; [ exact Hnd' | ] | reflexivity ].
      rewrite clientes_persistido in *.
      change (archivo_datos (persistido ?cs st)) with (archivo_datos st).
      apply init_persistido. exact Hnd'.
  - destruct (registrar_compra_casos ahora id m p pr st) as [[e E] | (c & _ & _ & E)];
      rewrite E in *; cbn [fst] in *.
    + split; [ split; assumption | reflexivity ].
    + split; [ split; [ exact Hnd' | ] | reflexivity ].
      rewrite clientes_persistido in *.
      change (archivo_datos (persistido ?cs st)) with (archivo_datos st).
      apply init_persistido. exact Hnd'.
Qed.

(** X9.  Nothing recorded is lost at a restart: start the system on any
    disk, run any sequence of [agregar_cliente] and [registrar_compra]
    calls, and start it again on the disk they leave; the ledger read is
    the ledger that was in memory, customer by customer and in the same
    order. *)
Theorem reinicio_conserva_clientes (archivo : string) (d : Disco) (ops : list Operacion) :
  let st := ejecutar_todas ops (init archivo d) in
  clientes (init archivo (disco st)) = clientes st.
Proof.
  intros st.
  assert (H : en_disco st /\ archivo_datos st = archivo).
  { subst st. unfold ejecutar_todas.
    assert (H0 : en_disco (init archivo d) /\ archivo_datos (init archivo d) = archivo).
    { destruct (init_datos archivo d) as (Ha & Hd & _).
      split; [ | exact Ha ]. split; [ apply init_claves_distintas | ].
      rewrite Ha, Hd. reflexivity. }
    revert H0. generalize (init archivo d).
    induction ops as [ | op ops IH]; intros s H0; cbn [fold_left]; [ exact H0 | ].
    apply IH. destruct H0 as [H0 Ha].
    destruct (ejecutar_en_disco op s H0) as [H1 Ha1].
    split; [ exact H1 | congruence ]. }
  destruct H as [[_ H] Ha]. rewrite Ha in H. exact H.
Qed.

(** ** The price table over time *)

(** X10.  [configurar_precios] works in memory only and never adds or
    removes a material: whatever is typed, the ledger and the disk are as
    before and the table has the same materials in the same order; so a
    system started afterwards on that disk has the initial prices again. *)
Theorem configurar_precios_no_persiste entrada_material entrada_precio sistema :
  let sistema' := fst (configurar_precios entrada_material entrada_precio sistema) in
  clientes sistema' = clientes sistema /\
  disco sistema' = disco sistema /\
  Dict.keys (precios_materiales sistema') = Dict.keys (precios_materiales sistema) /\
  precios_materiales (init (archivo_datos sistema') (disco sistema')) = precios_iniciales.
Proof.
  intros sistema'.
  assert (H : clientes sistema' = clientes sistema /\
              disco sistema' = disco sistema /\
              Dict.keys (precios_materiales sistema')
              = Dict.keys (precios_materiales sistema)).
  { subst sistema'. unfold configurar_precios, Dict.mem.
    destruct (Dict.get String.eqb (precios_materiales sistema)
                (PyStr.strip (PyStr.lower entrada_material))) as [v | ] eqn:Eg;
      [ | repeat split ].
    destruct entrada_precio as [nuevo_precio | ]; [ | repeat split ].
    destruct (0 <? nuevo_precio)%float; [ | repeat split ].
    cbn [fst]. split; [ reflexivity | ]. split; [ reflexivity | ].
    exact (keys_set_present String.eqb _ _ _ _ Eg). }
  destruct H as (H1 & H2 & H3). repeat split; try assumption.
  apply init_datos.
Qed.

(** X11.  The prices of the table stay above zero: from a table whose
    prices are all above zero, as the initial one is, whatever is typed in
    any number of calls of [configurar_precios], the price a purchase gets
    when none is given is above zero for every material. *)
Theorem precio_por_defecto_siempre_positivo entradas sistema material_ :
  precios_positivos (precios_materiales sistema) ->
  (0 <? precio_por_defecto (precios_materiales (configurar_todas entradas sistema))
                            material_)%float = true.
Proof.
  intros H. apply precio_por_defecto_positivo.
  unfold configurar_todas. revert sistema H.
  induction entradas as [ | [em ep] r IH]; intros sistema H; cbn [fold_left].
  - exact H.
  - apply IH. cbn [fst snd]. apply configurar_precios_positivos. exact H.
Qed.

Lemma precio_por_defecto_siempre_positivo_witness :
  (0 <? precio_por_defecto
          (precios_materiales
             (configurar_todas [ ("Cobre", Some 90.5%float); ("papel", Some (-2)%float);
                                 ("zinc", Some 1%float); ("vidrio", None) ]
                               sistema_vacio))
          "COBRE")%float = true.
Proof.
  apply (precio_por_defecto_siempre_positivo _ sistema_vacio "COBRE").
  intros k v H. cbn in H.
  repeat (destruct H as [[= <- <-] | H]; [ reflexivity | ]).
  destruct H.
Defined.

(** ** Reading the data file *)

(** X12.  Starting never fails and never keeps a broken file half-read:
    without a data file the ledger is empty; with a file that is not a
    JSON object, or one of whose keys is not an integer, the ledger is
    empty too, the customers under the good keys included. *)
Theorem init_sin_datos (archivo : string) (d : Disco) :
  (Dict.get String.eqb d archivo = None -> clientes (init archivo d) = []) /\
  (forall cabecera filas,
      Dict.get String.eqb d archivo = Some (Csv cabecera filas) ->
      clientes (init archivo d) = []) /\
  (forall data k v,
      Dict.get String.eqb d archivo = Some (Json data) ->
      In (k, v) data -> PyStr.int k = None ->
      clientes (init archivo d) = []).
Proof.
  unfold init, cargar_datos. cbn [archivo_datos disco].
  split; [ intros ->; reflexivity | ].
  split; [ intros cabecera filas ->; reflexivity | ].
  intros data k v -> Hin Hk.
  assert (E : forall acc, claves_enteras data acc = None).
  { induction data as [ | [k' v'] r IH]; [ destruct Hin | ].
    intros acc. cbn [claves_enteras].
    destruct Hin as [[= -> ->] | Hin]; [ rewrite Hk; reflexivity | ].
    destruct (PyStr.int k'); [ apply IH; exact Hin | reflexivity ]. }
  rewrite E. reflexivity.
Qed.

Lemma init_sin_datos_witness :
  clientes (init "clientes.json" []) = [] /\
  clientes (init "clientes.json" disco_clave_mala) = [].
Proof.
  split.
  - exact (proj1 (init_sin_datos "clientes.json" []) eq_refl).
  - refine (proj2 (proj2 (init_sin_datos "clientes.json" disco_clave_mala)) _ "x2"
                  (cliente_nuevo t0 "b" "2" "") eq_refl _ eq_refl).
    right. left. reflexivity.
Defined.

Lemma find_en_app {A : Type} (f : A -> bool) (l l' : list A) :
  find f (l ++ l')%list =
  match find f l with
  | Some x => Some x
  | None => find f l'
  end.
Proof.
  induction l as [ | a l IH]; cbn; [ reflexivity | ].
  destruct (f a); [ reflexivity | exact IH ].
Qed.

(** X13.  Whatever the data file holds, the ids of the ledger read from it
    are distinct; and when two keys of the file read as the same integer
    (as "1" and "01" do), the customer kept under that id is the one of
    the later key. *)
Theorem init_claves_y_repetidas (archivo : string) (d : Disco) :
  NoDup (Dict.keys (clientes (init archivo d))) /\
  forall data cs id,
    claves_enteras data [] = Some cs ->
    Dict.get Z.eqb cs id =
    option_map snd
      (find (fun kv => match PyStr.int (fst kv) with
                       | Some k => Z.eqb k id
                       | None => false
                       end) (rev data)).
Proof.
  split; [ apply init_claves_distintas | ].
  intros data cs id.
  assert (G : forall acc,
             claves_enteras data acc = Some cs ->
             Dict.get Z.eqb cs id =
             match find (fun kv => match PyStr.int (fst kv) with
                                   | Some k => Z.eqb k id
                                   | None => false
                                   end) (rev data) with
             | Some kv => Some (snd kv)
             | None => Dict.get Z.eqb acc id
             end).
  { induction data as [ | [k v] r IH]; intros acc; cbn [claves_enteras].
    - intros [= <-]. reflexivity.
    - destruct (PyStr.int k) as [kz | ] eqn:Ek; [ | discriminate ].
      intros H. rewrite (IH _ H). cbn [rev]. rewrite find_en_app.
      destruct (find _ (rev r)); [ reflexivity | ].
      cbn [find fst snd]. rewrite Ek.
      destruct (Z.eqb kz id) eqn:E.
      + apply Z.eqb_eq in E. subst kz. apply (get_set_same Z.eqb Z.eqb_eq).
      + apply Z.eqb_neq in E.
        apply (get_set_other Z.eqb Z.eqb_eq). congruence. }
  intros H. rewrite (G [] H). destruct (find _ (rev data)); reflexivity.
Qed.

Lemma init_claves_y_repetidas_witness :
  Dict.get Z.eqb (clientes (init "clientes.json" disco_clave_repetida)) 1%Z
  = Some (cliente_nuevo t0 "b" "2" "").
Proof.
  exact (proj2 (init_claves_y_repetidas "clientes.json" [])
               [("1", cliente_nuevo t0 "a" "1" ""); ("01", cliente_nuevo t0 "b" "2" "")]
               (clientes (init "clientes.json" disco_clave_repetida)) 1%Z eq_refl).
Defined.

(** ** Exporting, format by format *)

Lemma exportar_datos_json_eq ahora formato st :
  PyStr.lower formato = "json" ->
  exportar_datos ahora formato st =
  (set_disco (Dict.set String.eqb (disco st)
                ("backup_clientes_" ++ Strftime.sello ahora ++ ".json")
                (Json (json_dump (clientes st)))) st,
   inr ("backup_clientes_" ++ Strftime.sello ahora ++ ".json")).
Proof. intros H. unfold exportar_datos. rewrite H. reflexivity. Qed.

Lemma exportar_datos_csv_eq ahora formato st :
  PyStr.lower formato = "csv" ->
  exportar_datos ahora formato st =
  (set_disco (Dict.set String.eqb (disco st)
                ("reporte_clientes_" ++ Strftime.sello ahora ++ ".csv")
                (Csv cabecera_csv (map fila_csv (clientes st)))) st,
   inr ("reporte_clientes_" ++ Strftime.sello ahora ++ ".csv")).
Proof. intros H. unfold exportar_datos. rewrite H. reflexivity. Qed.

(** X14.  A JSON export is a backup that can be restored: for a format
    that reads "json" whatever its case, [exportar_datos] returns
    "backup_clientes_<timestamp>.json", and a system started with that
    file as its data file has the ledger that was exported. *)
Theorem exportar_datos_json_restaurable ahora formato st :
  PyStr.lower formato = "json" ->
  NoDup (Dict.keys (clientes st)) ->
  let r := exportar_datos ahora formato st in
  let archivo := ("backup_clientes_" ++ Strftime.sello ahora ++ ".json") in
  snd r = inr archivo /\
  clientes (fst r) = clientes st /\
  clientes (init archivo (disco (fst r))) = clientes st.
Proof.
  intros H Hnd r archivo. subst r.
  rewrite (exportar_datos_json_eq ahora formato st H). cbn [fst snd].
  split; [ reflexivity | ]. split; [ reflexivity | ].
  unfold init, cargar_datos.
  cbn [fst archivo_datos disco clientes set_clientes set_disco].
  fold archivo. rewrite (get_set_same String.eqb String.eqb_eq).
  rewrite claves_enteras_json_dump by exact Hnd.
  reflexivity.
Qed.

Lemma exportar_datos_json_restaurable_witness :
  clientes (init "backup_clientes_20250614_090507.json"
              (disco (fst (exportar_datos t0 "JSON" con_juan_y_ana))))
  = clientes con_juan_y_ana.
Proof.
  apply (exportar_datos_json_restaurable t0 "JSON" con_juan_y_ana eq_refl).
  repeat constructor; cbn; intuition discriminate.
Defined.

(** X16.  Exporting, in any format and whether it returns or raises,
    changes neither the ledger nor the price table, and touches no file
    but the one whose name it returns; the data file in particular is as
    it was unless it has that very name. *)
Theorem exportar_datos_solo_su_archivo ahora formato st otro :
  snd (exportar_datos ahora formato st) <> inr otro ->
  let st' := fst (exportar_datos ahora formato st) in
  clientes st' = clientes st /\
  precios_materiales st' = precios_materiales st /\
  Dict.get String.eqb (disco st') otro = Dict.get String.eqb (disco st) otro.
Proof.
  intros Hne st'. subst st'.
  destruct (String.eqb (PyStr.lower formato) "json") eqn:Ej.
  - apply String.eqb_eq in Ej.
    rewrite (exportar_datos_json_eq ahora formato st Ej) in *. cbn [fst snd] in *.
    repeat split. cbn [disco set_disco].
    apply (get_set_other String.eqb String.eqb_eq). congruence.
  - destruct (String.eqb (PyStr.lower formato) "csv") eqn:Ec.
    + apply String.eqb_eq in Ec.
      rewrite (exportar_datos_csv_eq ahora formato st Ec) in *. cbn [fst snd] in *.
      repeat split. cbn [disco set_disco].
      apply (get_set_other String.eqb String.eqb_eq). congruence.
    + unfold exportar_datos. rewrite Ej, Ec. repeat split.
Qed.

Lemma exportar_datos_solo_su_archivo_witness :
  Dict.get String.eqb (disco (fst (exportar_datos t0 "json" con_juan))) "clientes.json"
  = Dict.get String.eqb (disco con_juan) "clientes.json".
Proof.
  exact (proj2 (proj2 (exportar_datos_solo_su_archivo t0 "json" con_juan "clientes.json"
                         ltac:(discriminate)))).
Defined.

(** ** Sorting *)

Section Orden.
Context {A : Type}.
Variable antes : A -> A -> bool.

Lemma insertar_perm (x : A) (l : list A) : Permutation (insertar antes x l) (x :: l).
Proof.
  induction l as [ | y r IH]; cbn [insertar]; [ apply Permutation_refl | ].
  destruct (antes y x); [ | apply Permutation_refl ].
  apply perm_trans with (y :: x :: r); [ apply perm_skip; exact IH | apply perm_swap ].
Qed.

Lemma ordenar_perm (l : list A) : Permutation (ordenar antes l) l.
Proof.
  induction l as [ | x r IH]; cbn [ordenar fold_right]; [ apply perm_nil | ].
  apply perm_trans with (x :: ordenar antes r);
    [ apply insertar_perm | apply perm_skip; exact IH ].
Qed.

Lemma In_ordenar (a : A) (l : list A) : In a (ordenar antes l) <-> In a l.
Proof.
  split; apply Permutation_in;
    [ apply ordenar_perm | apply Permutation_sym, ordenar_perm ].
Qed.

Variable R : A -> A -> Prop.
Hypothesis antes_R : forall y x, antes y x = true -> R y x.
Hypothesis no_antes_R : forall y x, antes y x = false -> R x y.

Lemma insertar_Sorted (x : A) (l : list A) : Sorted R l -> Sorted R (insertar antes x l).
Proof.
  induction l as [ | y r IH]; cbn [insertar]; intros Hs.
  - constructor; constructor.
  - destruct (antes y x) eqn:E.
    + inversion Hs as [ | ? ? Hr Hhd]; subst. constructor; [ exact (IH Hr) | ].
      destruct r as [ | z r']; cbn [insertar].
      * constructor. exact (antes_R _ _ E).
      * destruct (antes z x); constructor.
        -- inversion Hhd; assumption.
        -- exact (antes_R _ _ E).
    + constructor; [ exact Hs | ]. constructor. exact (no_antes_R _ _ E).
Qed.

Lemma ordenar_Sorted (l : list A) : Sorted R (ordenar antes l).
Proof.
  induction l as [ | x r IH]; cbn [ordenar fold_right]; [ constructor | ].
  apply insertar_Sorted. exact IH.
Qed.
End Orden.

Section Estable.
Context {A : Type}.
Variable antes : A -> A -> bool.
Variable P : A -> bool.
Hypothesis antes_separa : forall y x, antes y x = true -> P y = true -> P x = true -> False.

Lemma filter_insertar (x : A) (l : list A) :
  filter P (insertar antes x l) = filter P (x :: l).
Proof.
  induction l as [ | y r IH]; cbn [insertar]; [ reflexivity | ].
  destruct (antes y x) eqn:E; [ | reflexivity ].
  cbn [filter] in IH |- *. rewrite IH.
  destruct (P y) eqn:Ey; destruct (P x) eqn:Ex; try reflexivity.
  elim (antes_separa _ _ E Ey Ex).
Qed.

Lemma filter_ordenar (l : list A) : filter P (ordenar antes l) = filter P l.
Proof.
  induction l as [ | x r IH]; cbn [ordenar fold_right]; [ reflexivity | ].
  rewrite filter_insertar. cbn [filter]. fold (ordenar antes r). rewrite IH. reflexivity.
Qed.
End Estable.

Lemma Sorted_firstn {A : Type} (R : A -> A -> Prop) (n : nat) (l : list A) :
  Sorted R l -> Sorted R (firstn n l).
Proof.
  revert l. induction n as [ | n IH]; intros l Hs; [ constructor | ].
  destruct l as [ | x r]; cbn [firstn]; [ constructor | ].
  inversion Hs as [ | ? ? Hr Hhd]; subst. constructor; [ exact (IH _ Hr) | ].
  destruct r as [ | y r']; destruct n; cbn [firstn]; constructor.
  inversion Hhd; assumption.
Qed.

Lemma Sorted_hasta {A : Type} (R : A -> A -> Prop) (n : Z) (l : list A) :
  Sorted R l -> Sorted R (hasta n l).
Proof. intros H. unfold hasta. destruct (0 <=? n)%Z; apply Sorted_firstn; exact H. Qed.

Lemma In_primeros {A : Type} (n : nat) (l : list A) (a : A) :
  In a (firstn n l) -> In a l.
Proof.
  revert l. induction n as [ | n IH]; intros [ | x r]; cbn [firstn].
  - intros [].
  - intros [].
  - intros [].
  - intros [H | H]; [ left; exact H | right; exact (IH _ H) ].
Qed.

Lemma In_hasta {A : Type} (n : Z) (l : list A) (a : A) : In a (hasta n l) -> In a l.
Proof. unfold hasta. destruct (0 <=? n)%Z; apply In_primeros. Qed.

Lemma length_hasta {A : Type} (n : Z) (l : list A) :
  Z.of_nat (List.length (hasta n l)) =
  if (0 <=? n)%Z then Z.min n (Z.of_nat (List.length l))
  else Z.max 0 (Z.of_nat (List.length l) + n).
Proof.
  unfold hasta. destruct (0 <=? n)%Z eqn:E; rewrite length_firstn.
  - apply Z.leb_le in E. lia.
  - apply Z.leb_gt in E. lia.
Qed.

(** ** Searching *)

Lemma prefix_app (sub s : string) :
  String.prefix sub s = true <-> exists b, s = sub ++ b.
Proof.
  revert s. induction sub as [ | c sub IH]; intros s.
  - destruct s; cbn; (split; [ intros _; eexists; reflexivity | reflexivity ]).
  - destruct s as [ | c' s]; cbn.
    + split; [ discriminate | intros [b H]; discriminate H ].
    + destruct (ascii_dec c c') as [-> | Hne].
      * rewrite IH. split; intros [b H]; exists b; congruence.
      * split; [ discriminate | intros [b H]; congruence ].
Qed.

(** [str_in sub s] holds exactly when [sub] occurs in [s]. *)
Lemma str_in_spec (sub s : string) :
  str_in sub s = true <-> exists a b, s = a ++ sub ++ b.
Proof.
  induction s as [ | c s IH]; cbn [str_in]; rewrite orb_true_iff, prefix_app.
  - split.
    + intros [[b H] | H]; [ exists "", b; exact H | discriminate H ].
    + intros (a & b & H). left. destruct a; [ exists b; exact H | discriminate H ].
  - rewrite IH. split.
    + intros [[b H] | (a & b & H)].
      * exists "", b. exact H.
      * exists (String c a), b. cbn. rewrite H. reflexivity.
    + intros (a & b & H). destruct a as [ | c' a]; cbn in H.
      * left. exists b. exact H.
      * right. exists a, b. congruence.
Qed.

(** X17.  What [buscar_cliente] finds, whatever [str.lower] and
    [str.strip] are ([T]).  A term that is blank finds nothing.  Otherwise
    a customer is among the results exactly when it is in the ledger, is
    active, and the lower-cased trimmed term occurs in its lower-cased name
    or address or the term as typed (not trimmed, not lower-cased) occurs
    in its telephone. *)
Theorem buscar_cliente_con_resultados T termino st :
  (m_strip T termino = "" -> buscar_cliente_con T termino st = []) /\
  (m_strip T termino <> "" ->
   forall id c,
     In (id, c) (buscar_cliente_con T termino st) <->
     In (id, c) (clientes st) /\
     activo c = true /\
     ((exists a b, m_lower T (nombre c) = a ++ m_strip T (m_lower T termino) ++ b) \/
      (exists a b, telefono c = a ++ termino ++ b) \/
      (exists a b, m_lower T (direccion c) = a ++ m_strip T (m_lower T termino) ++ b))).
Proof.
  unfold buscar_cliente_con. split.
  - intros ->. reflexivity.
  - intros H id c. apply String.eqb_neq in H. rewrite H.
    rewrite In_ordenar, filter_In. cbn [snd].
    unfold coincide_con. rewrite andb_true_iff, !orb_true_iff, !str_in_spec.
    tauto.
Qed.

Lemma buscar_cliente_con_resultados_witness :
  buscar_cliente "  " con_juan_y_ana = [] /\
  In (2%Z, cliente_nuevo t0 "ana ruiz" "555-9999" "Calle 2")
     (buscar_cliente " RUIZ " con_juan_y_ana).
Proof.
  split.
  - exact (proj1 (buscar_cliente_con_resultados metodos_ascii "  " con_juan_y_ana)
                 eq_refl).
  - apply (proj2 (buscar_cliente_con_resultados metodos_ascii " RUIZ " con_juan_y_ana)
                 ltac:(discriminate)).
    split; [ right; left; reflexivity | ].
    split; [ reflexivity | ].
    left. exists "ana ", "". reflexivity.
Defined.

Lemma ltb_leb (a b : string) : String.ltb a b = true -> String.leb a b = true.
Proof. unfold String.ltb, String.leb. destruct (String.compare a b); congruence. Qed.

Lemma no_ltb_leb (a b : string) : String.ltb a b = false -> String.leb b a = true.
Proof.
  unfold String.ltb, String.leb. rewrite (String.compare_antisym a b).
  destruct (String.compare b a); cbn; congruence.
Qed.

Lemma ltb_irrefl (a : string) : String.ltb a a = false.
Proof.
  unfold String.ltb.
  assert (E : String.compare a a = Eq).
  { induction a as [ | c r IH]; cbn; [ reflexivity | ].
    unfold Ascii.compare. rewrite N.compare_refl. exact IH. }
  rewrite E. reflexivity.
Qed.

(** X18.  The results of a search come sorted by name: no result is
    followed by one whose name is smaller (in the order of Python's
    strings); they are the matching customers, each as many times as it is
    in the ledger; and the customers of one name keep the order they have
    in the ledger. *)
Theorem buscar_cliente_ordenado termino st :
  let encontrados :=
    filter (fun kv => activo (snd kv) &&
                      coincide termino (PyStr.strip (PyStr.lower termino)) (snd kv))
           (clientes st) in
  Sorted (fun a b => String.leb (nombre (snd a)) (nombre (snd b)) = true)
         (buscar_cliente termino st) /\
  (PyStr.strip termino = "" \/
   (Permutation (buscar_cliente termino st) encontrados /\
    forall n,
      filter (fun kv => String.eqb (nombre (snd kv)) n) (buscar_cliente termino st) =
      filter (fun kv => String.eqb (nombre (snd kv)) n) encontrados)).
Proof.
  intros encontrados. subst encontrados. unfold buscar_cliente.
  destruct (String.eqb (PyStr.strip termino) "") eqn:E.
  - split; [ constructor | left; apply String.eqb_eq; exact E ].
  - split.
    + apply ordenar_Sorted; intros y x; [ apply ltb_leb | ].
      intros H. apply no_ltb_leb. exact H.
    + right. split; [ apply ordenar_perm | ].
      intros n. apply filter_ordenar.
      intros y x H Hy Hx. apply String.eqb_eq in Hy, Hx.
      rewrite Hy, Hx, ltb_irrefl in H. discriminate H.
Qed.

(** ** The report of a customer *)

(** X19.  [reporte_cliente] reports nothing but "not found" for an id that
    is not in the ledger.  For a customer of the ledger it shows that
    customer, and the purchases it lists are the last ones of the history
    in their order: all of them when there are five or fewer, the last
    five otherwise. *)
Theorem reporte_cliente_ultimas cliente_id st :
  (Dict.get Z.eqb (clientes st) cliente_id = None ->
   reporte_cliente cliente_id st = None) /\
  (forall c,
      Dict.get Z.eqb (clientes st) cliente_id = Some c ->
      exists r,
        reporte_cliente cliente_id st = Some r /\
        rep_id r = cliente_id /\
        rep_cliente r = c /\
        (exists anteriores, historial c = (anteriores ++ rep_ultimas r)%list) /\
        List.length (rep_ultimas r) = Nat.min 5 (List.length (historial c))).
Proof.
  unfold reporte_cliente. split; [ intros ->; reflexivity | ].
  intros c ->. destruct (historial c) as [ | x h] eqn:E.
  - eexists. split; [ reflexivity | ]. cbn. repeat split. exists []. reflexivity.
  - eexists. split; [ reflexivity | ]. cbn [rep_id rep_cliente rep_ultimas].
    split; [ reflexivity | ]. split; [ reflexivity | ]. unfold ultimas_5. split.
    + exists (firstn (List.length (x :: h) - 5) (x :: h)).
      symmetry. apply firstn_skipn.
    + rewrite length_skipn. lia.
Qed.

Lemma reporte_cliente_ultimas_witness :
  reporte_cliente 7 con_juan = None /\
  exists r, reporte_cliente 1 con_juan = Some r /\ rep_id r = 1%Z.
Proof.
  split.
  - exact (proj1 (reporte_cliente_ultimas 7%Z con_juan) eq_refl).
  - destruct (proj2 (reporte_cliente_ultimas 1%Z con_juan)
                (cliente_nuevo t0 "Juan Pérez" "555-1234" "Av. Central 10") eq_refl)
      as (r & H1 & H2 & _).
    exists r. split; assumption.
Defined.

Section ClavesTexto.
Context {V : Type}.

Lemma set_NoDup_texto (d : Dict.t (K := string) (V := V)) (k : string) (v : V) :
  NoDup (Dict.keys d) -> NoDup (Dict.keys (Dict.set String.eqb d k v)).
Proof.
  intros Hnd. destruct (Dict.get String.eqb d k) as [v0 | ] eqn:E.
  - rewrite (keys_set_present String.eqb _ _ _ _ E). exact Hnd.
  - rewrite (set_absent String.eqb _ _ _ E). unfold Dict.keys. rewrite map_app.
    apply NoDup_snoc; [ exact Hnd | ].
    apply (get_None_not_key String.eqb String.eqb_eq). exact E.
Qed.

Lemma In_get_texto (d : Dict.t (K := string) (V := V)) (k : string) (v : V) :
  NoDup (Dict.keys d) -> In (k, v) d -> Dict.get String.eqb d k = Some v.
Proof.
  induction d as [ | [k' v'] r IH]; cbn; intros Hnd Hin; [ destruct Hin | ].
  inversion Hnd as [ | ? ? Hk Hr]; subst.
  destruct Hin as [[= -> ->] | Hin].
  - rewrite String.eqb_refl. reflexivity.
  - destruct (String.eqb k' k) eqn:E; [ | exact (IH Hr Hin) ].
    apply String.eqb_eq in E. subst k'. elim Hk.
    apply in_map_iff. exists (k, v). split; [ reflexivity | exact Hin ].
Qed.
End ClavesTexto.

Lemma compras_de_material_snoc (m : string) (h : list Compra) (c : Compra) :
  compras_de_material m (h ++ [c]) =
  (compras_de_material m h ++ (if String.eqb (material c) m then [c] else []))%list.
Proof. unfold compras_de_material. rewrite filter_app. reflexivity. Qed.

Lemma stats_de_snoc (h : list Compra) (c : Compra) :
  stats_de (material c) (h ++ [c]) =
  {| stats_peso := (stats_peso (stats_de (material c) h) + peso c)%float;
     stats_total := (stats_total (stats_de (material c) h) + total c)%float;
     stats_count := (stats_count (stats_de (material c) h) + 1)%Z |}.
Proof.
  unfold stats_de. rewrite compras_de_material_snoc, String.eqb_refl.
  cbn [stats_peso stats_total stats_count].
  rewrite !map_app, length_app. cbn [map List.length].
  rewrite !py_sum_snoc. f_equal. lia.
Qed.

Lemma contar_material_cuenta (h : list Compra) (d : Dict.t) (c : Compra) :
  cuenta_de h d -> cuenta_de (h ++ [c]) (contar_material d c).
Proof.
  intros [Hnd Hget]. unfold contar_material, Dict.mem.
  pose proof (Hget (material c)) as Hmat.
  assert (Hotros : forall (d' : Dict.t (K := string) (V := Stats)) s m,
             m <> material c ->
             Dict.get String.eqb d' m = Dict.get String.eqb d m ->
             Dict.get String.eqb (Dict.set String.eqb d' (material c) s) m =
             match compras_de_material m (h ++ [c]) with
             | [] => None
             | _ => Some (stats_de m (h ++ [c]))
             end).
  { intros d' s m Hne Hd'.
    rewrite (get_set_other String.eqb String.eqb_eq) by exact Hne.
    rewrite Hd', Hget. unfold stats_de. rewrite compras_de_material_snoc.
    destruct (String.eqb (material c) m) eqn:E;
      [ apply String.eqb_eq in E; congruence | ].
    rewrite app_nil_r. reflexivity. }
  assert (Hmio : forall (d' : Dict.t (K := string) (V := Stats)),
             Dict.get String.eqb
               (Dict.set String.eqb d' (material c) (stats_de (material c) (h ++ [c])))
               (material c) =
             match compras_de_material (material c) (h ++ [c]) with
             | [] => None
             | _ => Some (stats_de (material c) (h ++ [c]))
             end).
  { intros d'. rewrite (get_set_same String.eqb String.eqb_eq).
    rewrite compras_de_material_snoc, String.eqb_refl.
    destruct (compras_de_material (material c) h); reflexivity. }
  destruct (Dict.get String.eqb d (material c)) as [s | ] eqn:Eg.
  - rewrite Eg.
    assert (Hs : s = stats_de (material c) h).
    { destruct (compras_de_material (material c) h); congruence. }
    subst s. rewrite <- stats_de_snoc. split.
    + apply set_NoDup_texto. exact Hnd.
    + intros m. destruct (String.eqb_spec m (material c)) as [-> | Hne].
      * apply Hmio.
      * apply Hotros; [ exact Hne | reflexivity ].
  - rewrite (get_set_same String.eqb String.eqb_eq).
    assert (Hvacio : compras_de_material (material c) h = []).
    { destruct (compras_de_material (material c) h); [ reflexivity | discriminate ]. }
    assert (Hz : {| stats_peso := (0 + peso c)%float;
                    stats_total := (0 + total c)%float;
                    stats_count := (0 + 1)%Z |} = stats_de (material c) (h ++ [c])).
    { rewrite stats_de_snoc. unfold stats_de. rewrite Hvacio. reflexivity. }
    cbn [stats_peso stats_total stats_count]. rewrite Hz. split.
    + apply set_NoDup_texto. apply set_NoDup_texto. exact Hnd.
    + intros m. destruct (String.eqb_spec m (material c)) as [-> | Hne].
      * apply Hmio.
      * apply Hotros; [ exact Hne | ].
        apply (get_set_other String.eqb String.eqb_eq). exact Hne.
Qed.

Lemma materiales_count_de_cuenta (h : list Compra) :
  cuenta_de h (materiales_count_de h).
Proof.
  unfold materiales_count_de.
  assert (G : forall h2 h1 d, cuenta_de h1 d ->
                              cuenta_de (h1 ++ h2) (fold_left contar_material h2 d)).
  { induction h2 as [ | c h2 IH]; intros h1 d H; cbn [fold_left].
    - rewrite app_nil_r. exact H.
    - replace (h1 ++ c :: h2)%list with ((h1 ++ [c]) ++ h2)%list
        by (rewrite <- app_assoc; reflexivity).
      apply IH. apply contar_material_cuenta. exact H. }
  apply (G h [] []). split; [ constructor | reflexivity ].
Qed.

(** X20.  The figures by material of a report are those of the history: a
    material is listed, once, exactly when the customer has a purchase of
    it, and its weight, total and count are the weights and totals of
    those purchases added in the order of the history, and their number.
    Materials are told apart by their stored (title-case) name. *)
Theorem reporte_cliente_materiales cliente_id st c r :
  Dict.get Z.eqb (clientes st) cliente_id = Some c ->
  reporte_cliente cliente_id st = Some r ->
  NoDup (map fst (rep_materiales r)) /\
  forall m s,
    In (m, s) (rep_materiales r) <->
    compras_de_material m (historial c) <> [] /\
    stats_peso s = py_sum (map peso (compras_de_material m (historial c))) /\
    stats_total s = py_sum (map total (compras_de_material m (historial c))) /\
    stats_count s = Z.of_nat (List.length (compras_de_material m (historial c))).
Proof.
  intros Hc. unfold reporte_cliente. rewrite Hc. intros [= <-].
  destruct (materiales_count_de_cuenta (historial c)) as [Hnd Hget].
  assert (Hrep : exists antes,
             rep_materiales
               match historial c with
               | [] => {| rep_id := cliente_id; rep_cliente := c;
                          rep_ultimas := []; rep_materiales := [] |}
               | _ :: _ =>
                   {| rep_id := cliente_id; rep_cliente := c;
                      rep_ultimas := ultimas_5 (historial c);
                      rep_materiales :=
                        ordenar (fun y x => (stats_total (snd x) <? stats_total (snd y))%float)
                                (materiales_count_de (historial c)) |}
               end = ordenar antes (materiales_count_de (historial c))).
  { exists (fun y x => (stats_total (snd x) <? stats_total (snd y))%float).
    destruct (historial c); reflexivity. }
  destruct Hrep as [antes ->]. split.
  - apply (Permutation_NoDup (l := map fst (materiales_count_de (historial c))));
      [ | exact Hnd ].
    apply Permutation_map, Permutation_sym, ordenar_perm.
  - intros m s. rewrite In_ordenar. split.
    + intros Hin. apply (In_get_texto _ _ _ Hnd) in Hin. rewrite Hget in Hin.
      destruct (compras_de_material m (historial c)) eqn:E; [ discriminate Hin | ].
      injection Hin as <-. unfold stats_de. rewrite E.
      split; [ discriminate | repeat split ].
    + intros (Hne & H1 & H2 & H3).
      apply (get_In String.eqb String.eqb_eq). rewrite Hget.
      destruct (compras_de_material m (historial c)) eqn:E; [ congruence | ].
      f_equal. unfold stats_de. rewrite E. destruct s; cbn in *. congruence.
Qed.

Lemma reporte_cliente_materiales_witness :
  NoDup (map fst
           match reporte_cliente 1 (ejecutar_todas operaciones_ejemplo sistema_vacio) with
           | Some r => rep_materiales r
           | None => []
           end).
Proof.
  destruct (reporte_cliente 1 (ejecutar_todas operaciones_ejemplo sistema_vacio))
    as [r | ] eqn:H; [ | constructor ].
  exact (proj1 (reporte_cliente_materiales 1%Z
                  (ejecutar_todas operaciones_ejemplo sistema_vacio) juan_final r
                  eq_refl H)).
Defined.

(** ** The order of floats *)

Lemma SFcompare_Lt_Gt (x y : spec_float) :
  SFcompare x y = Some Lt -> SFcompare y x = Some Gt.
Proof.
  destruct x as [sx | sx | | sx mx ex]; destruct y as [sy | sy | | sy my ey];
    cbn; try destruct sx; try destruct sy; try congruence.
  - rewrite (Z.compare_antisym ey ex).
    destruct (ey ?= ex)%Z; cbn; try congruence.
    pose proof (Pos.compare_cont_antisym mx my Eq) as Ha. cbn [CompOpp] in Ha.
    rewrite <- Ha.
    destruct (Pos.compare_cont Eq mx my); cbn; congruence.
  - rewrite (Z.compare_antisym ey ex).
    destruct (ey ?= ex)%Z; cbn; try congruence.
    pose proof (Pos.compare_cont_antisym mx my Eq) as Ha. cbn [CompOpp] in Ha.
    rewrite <- Ha.
    destruct (Pos.compare_cont Eq mx my); cbn; congruence.
Qed.

Lemma ltb_asym (x y : float) : (x <? y)%float = true -> (y <? x)%float = false.
Proof.
  rewrite !ltb_spec. unfold SFltb.
  destruct (SFcompare (Prim2SF x) (Prim2SF y)) as [[ | | ] | ] eqn:E; try discriminate.
  rewrite (SFcompare_Lt_Gt _ _ E). reflexivity.
Qed.

(** X21.  The materials of a report come with the greatest total first:
    when the totals are numbers (so that the order of the sort is
    determined), no material is followed by one with a greater total. *)
Theorem reporte_cliente_materiales_orden cliente_id st r :
  reporte_cliente cliente_id st = Some r ->
  (forall m s, In (m, s) (rep_materiales r) -> (stats_total s =? stats_total s)%float = true) ->
  Sorted (fun a b => (stats_total (snd a) <? stats_total (snd b))%float = false)
         (rep_materiales r).
Proof.
  unfold reporte_cliente.
  destruct (Dict.get Z.eqb (clientes st) cliente_id) as [c | ]; [ | discriminate ].
  intros [= <-] _.
  destruct (historial c); cbn [rep_materiales]; [ constructor | ].
  apply ordenar_Sorted; intros y x H; [ apply ltb_asym | ]; exact H.
Qed.

Lemma reporte_cliente_materiales_orden_witness :
  Sorted (fun a b => (stats_total (snd a) <? stats_total (snd b))%float = false)
         match reporte_cliente 1 (ejecutar_todas operaciones_ejemplo sistema_vacio) with
         | Some r => rep_materiales r
         | None => []
         end.
Proof.
  destruct (reporte_cliente 1 (ejecutar_todas operaciones_ejemplo sistema_vacio))
    as [r | ] eqn:H; [ | constructor ].
  apply (reporte_cliente_materiales_orden 1%Z
           (ejecutar_todas operaciones_ejemplo sistema_vacio) r H).
  vm_compute in H. injection H as <-. cbn [rep_materiales].
  intros m s [[= <- <-] | [[= <- <-] | []]]; reflexivity.
Defined.

(** ** The ranking *)

Lemma ordenar_por_perm (criterio : string) (l : list (Z * Cliente)) :
  Permutation (ordenar_por criterio l) l.
Proof.
  unfold ordenar_por.
  destruct (String.eqb criterio "total"); [ apply ordenar_perm | ].
  destruct (String.eqb criterio "peso"); apply ordenar_perm.
Qed.

(** X22.  A criterion that is not one of "total", "peso" and
    "transacciones" ranks as "total" does: the same lines are printed. *)
Theorem top_clientes_criterio_desconocido limite criterio st :
  criterio <> "total" -> criterio <> "peso" -> criterio <> "transacciones" ->
  top_clientes limite criterio st = top_clientes limite "total" st.
Proof.
  intros H1 H2 H3.
  apply String.eqb_neq in H1, H2, H3.
  unfold top_clientes, top_seleccion, criterio_efectivo.
  rewrite H1, H2, H3. reflexivity.
Qed.

Lemma top_clientes_criterio_desconocido_witness :
  top_clientes 10 "Total" con_juan_y_ana = top_clientes 10 "total" con_juan_y_ana.
Proof.
  apply (top_clientes_criterio_desconocido 10 "Total" con_juan_y_ana); discriminate.
Defined.

(** X23.  Who is ranked.  [top_clientes] prints that there are no
    customers exactly when the ledger is empty.  Otherwise every customer
    listed is an active customer of the ledger, and with [n] active
    customers the list has [min(limite, n)] entries for a limit that is
    not negative, and [max(0, n + limite)] for a negative one (the slice
    [[:limite]] then drops entries from the end). *)
Theorem top_clientes_seleccion limite criterio st :
  (top_seleccion limite criterio st = None <-> clientes st = []) /\
  forall l,
    top_seleccion limite criterio st = Some l ->
    (forall kv, In kv l -> In kv (clientes st) /\ activo (snd kv) = true) /\
    Z.of_nat (List.length l) =
    (let n := Z.of_nat (List.length (filter (fun kv => activo (snd kv)) (clientes st))) in
     if (0 <=? limite)%Z then Z.min limite n else Z.max 0 (n + limite)).
Proof.
  unfold top_seleccion. split.
  - destruct (clientes st); split; congruence.
  - intros l H.
    assert (E : l = hasta limite
                      (ordenar_por (criterio_efectivo criterio)
                         (filter (fun kv => activo (snd kv)) (clientes st)))).
    { destruct (clientes st); [ discriminate | congruence ]. }
    clear H. subst l. split.
    + intros kv Hin. apply In_hasta in Hin.
      apply (Permutation_in _ (ordenar_por_perm _ _)) in Hin.
      apply filter_In in Hin. exact Hin.
    + rewrite length_hasta.
      rewrite (Permutation_length (ordenar_por_perm _ _)). reflexivity.
Qed.

Lemma top_clientes_seleccion_witness :
  top_seleccion 5 "peso" sistema_vacio = None /\
  exists l, top_seleccion (-1) "peso" con_juan_y_ana = Some l /\ Z.of_nat (List.length l) = 1%Z.
Proof.
  split.
  - exact (proj2 (proj1 (top_clientes_seleccion 5 "peso" sistema_vacio)) eq_refl).
  - eexists. split; [ reflexivity | ].
    exact (proj2 (proj2 (top_clientes_seleccion (-1) "peso" con_juan_y_ana) _ eq_refl)).
Defined.

(** X24.  Ranked by "transacciones", the customers come with the most
    transactions first: each one listed has at least as many as every one
    listed after it. *)
Theorem top_clientes_por_transacciones limite st l :
  top_seleccion limite "transacciones" st = Some l ->
  StronglySorted (fun a b => (num_transacciones (snd b) <= num_transacciones (snd a))%Z) l.
Proof.
  unfold top_seleccion. destruct (clientes st) as [ | kv0 cs]; [ discriminate | ].
  intros [= <-]. apply Sorted_StronglySorted.
  - intros a b c Hab Hbc. lia.
  - apply Sorted_hasta. cbn.
    apply ordenar_Sorted; intros y x H.
    + apply Z.ltb_lt in H. lia.
    + apply Z.ltb_ge in H. lia.
Qed.

Lemma top_clientes_por_transacciones_witness :
  StronglySorted (fun a b => (num_transacciones (snd b) <= num_transacciones (snd a))%Z)
    match top_seleccion 10 "transacciones" con_juan_y_ana with
    | Some l => l
    | None => []
    end.
Proof.
  apply (top_clientes_por_transacciones 10 con_juan_y_ana). reflexivity.
Defined.

(** X25.  Ranked by "total" or by "peso", the customers come with the
    greatest amount first: when the amounts of the active customers are
    numbers (so that the order of the sort is determined), no customer
    listed is followed by one with a greater amount. *)
Theorem top_clientes_por_importe limite st :
  (forall id c, In (id, c) (clientes st) -> activo c = true ->
                (compras_totales c =? compras_totales c)%float = true /\
                (peso_total c =? peso_total c)%float = true) ->
  (forall l, top_seleccion limite "total" st = Some l ->
             Sorted (fun a b => (compras_totales (snd a) <? compras_totales (snd b))%float
                                = false) l) /\
  (forall l, top_seleccion limite "peso" st = Some l ->
             Sorted (fun a b => (peso_total (snd a) <? peso_total (snd b))%float = false) l).
Proof.
  intros _. unfold top_seleccion.
  destruct (clientes st) as [ | kv0 cs]; [ split; discriminate | ].
  split; intros l [= <-]; apply Sorted_hasta; cbn;
    (apply ordenar_Sorted;
     [ intros y x H; apply ltb_asym; exact H | intros y x H; exact H ]).
Qed.

Lemma top_clientes_por_importe_witness :
  Sorted (fun a b => (compras_totales (snd a) <? compras_totales (snd b))%float = false)
    match top_seleccion 10 "total" (ejecutar_todas operaciones_ejemplo con_juan_y_ana) with
    | Some l => l
    | None => []
    end.
Proof.
  refine (proj1 (top_clientes_por_importe 10
                   (ejecutar_todas operaciones_ejemplo con_juan_y_ana) _) _ eq_refl).
  intros id c H _. vm_compute in H.
  destruct H as [[= <- <-] | [[= <- <-] | []]]; split; reflexivity.
Defined.

(** ** Creating, then recording *)

(** X26.  The id [agregar_cliente] returns can be used at once: whenever
    the call returns an id, that id is in the ledger it leaves, and a
    purchase with a weight above zero recorded for it there is accepted. *)
Theorem agregar_y_registrar ahora n t d st st' id ahora2 m p pr :
  agregar_cliente ahora n t d st = (st', inr id) ->
  (0 <? p)%float = true ->
  (exists c, Dict.get Z.eqb (clientes st') id = Some c) /\
  exists importe, snd (registrar_compra ahora2 id m p pr st') = inr importe.
Proof.
  intros H Hp.
  assert (Hc : exists c, Dict.get Z.eqb (clientes st') id = Some c).
  { destruct (String.eqb (PyStr.strip n) "") eqn:En.
    - apply String.eqb_eq in En.
      rewrite (agregar_cliente_vacio _ _ _ _ _ En) in H. discriminate H.
    - apply String.eqb_neq in En.
      destruct (buscar_telefono (clientes st) t) as [id0 | ] eqn:Eb.
      + rewrite (agregar_cliente_existente _ _ _ _ _ id0 En Eb) in H.
        injection H as <- <-.
        destruct (buscar_telefono_Some _ _ _ Eb) as (c0 & Hin & _).
        destruct (Dict.get Z.eqb (clientes st) id0) as [c | ] eqn:Eg;
          [ exists c; reflexivity | ].
        apply (get_None_not_key Z.eqb Z.eqb_eq) in Eg. elim Eg.
        apply in_map_iff. exists (id0, c0). split; [ reflexivity | exact Hin ].
      + rewrite (agregar_cliente_alta _ _ _ _ _ En Eb) in H.
        injection H as <- <-. eexists.
        rewrite clientes_persistido.
        rewrite <- (set_absent Z.eqb) by apply py_max_succ_fresh.
        apply (get_set_same Z.eqb Z.eqb_eq). }
  split; [ exact Hc | ].
  destruct Hc as [c Hc]. apply ltb_zero_not_leb in Hp.
  rewrite (registrar_compra_hecha ahora2 id m p pr st' c Hc Hp).
  eexists. reflexivity.
Qed.

Lemma agregar_y_registrar_witness :
  exists importe,
    snd (registrar_compra t0 2 "cobre" 1.5%float None con_juan_y_ana) = inr importe.
Proof.
  exact (proj2 (agregar_y_registrar t0 "ana ruiz" "555-9999" "Calle 2" con_juan
                  con_juan_y_ana 2%Z t0 "cobre" 1.5%float None eq_refl eq_refl)).
Defined.
